(** * Resource bundles and the blob handler of Bokeh

    A shallow embedding of [bokeh/embed/bundle.py] and
    [bokeh/server/views/blob_handler.py], and the properties of the
    resource-bundle resolution algorithm proved over it.

    Python values are modelled as the code uses them: [str] as [string],
    [dict] as [gmap], the [names] sets as [gset string], lists as [list];
    raised exceptions are values of [exn], and the code that touches the
    process-wide [servables] registry or emits warnings runs in a
    state-and-exception monad [M]. *)

From Stdlib Require Import Strings.Ascii Strings.String Strings.Byte.
From stdpp Require Import base strings list gmap.

Set Warnings "-clear-no-such-hyp".

Open Scope string_scope.
Open Scope list_scope.

(** ** Python prelude *)

Module Py.

(** Exceptions raised by the modelled code or by the collaborators it calls. *)
Inductive exn : Type :=
  | NameError (name : string)
  | KeyError (key : string)
  | ValueError (msg : string)
  | AttributeError (msg : string)
  | ImportError (name : string)
  | OSError (path : string)
  | JSONDecodeError (path : string)
  | HTTPError (status : nat)
  | TypeError (msg : string).

Inductive result (A : Type) : Type :=
  | Ok (a : A)
  | Raise (e : exn).
Arguments Ok {A} a.
Arguments Raise {A} e.

#[export] Instance result_ret : MRet result := λ A a, Ok a.
#[export] Instance result_bind : MBind result := λ A B f m,
  match m with
  | Ok a => f a
  | Raise e => Raise e
  end.

(** [[f(x) for x in l]], where [f] may raise: the first exception aborts the
    comprehension. *)
Fixpoint comprehension {A B : Type} (f : A → result B) (l : list A) : result (list B) :=
  match l with
  | [] => Ok []
  | x :: l' => y ← f x; ys ← comprehension f l'; Ok (y :: ys)
  end.

(** [d[key]] on a [dict] with [str] keys. *)
Definition getitem {V : Type} (d : gmap string V) (key : string) : result V :=
  match d !! key with
  | Some v => Ok v
  | None => Raise (KeyError key)
  end.

(** [d.get(key, dflt)]; the caller has already evaluated [dflt]. *)
Definition get {V : Type} (d : gmap string V) (key : string) (dflt : V) : V :=
  default dflt (d !! key).

(** [s.startswith(p)]. *)
Definition startswith (s p : string) : bool := String.prefix p s.

(** [s.endswith("/")]. *)
Fixpoint endswith_sep (s : string) : bool :=
  match s with
  | EmptyString => false
  | String c EmptyString => if decide (c = "/"%char) then true else false
  | String _ r => endswith_sep r
  end.

(** [s.split(".")[0]]: the characters before the first dot. *)
Fixpoint split_dot_0 (s : string) : string :=
  match s with
  | EmptyString => EmptyString
  | String c r => if decide (c = "."%char) then EmptyString else String c (split_dot_0 r)
  end.

(** [os.path] on a POSIX system. *)
Module path.

(** [join(a, b)]: an absolute [b] discards [a]; a separator is inserted
    unless [a] is empty or already ends with one. *)
Definition join (a b : string) : string :=
  if startswith b "/" then b
  else if bool_decide (a = "") || endswith_sep a then a +:+ b
  else a +:+ "/" +:+ b.

(** [join(a, b, c)] folds [join] from the left. *)
Definition join3 (a b c : string) : string := join (join a b) c.

Fixpoint has_sep (p : string) : bool :=
  match p with
  | EmptyString => false
  | String c r => if decide (c = "/"%char) then true else has_sep r
  end.

(** [p[:p.rfind("/") + 1]] *)
Fixpoint head (p : string) : string :=
  match p with
  | EmptyString => EmptyString
  | String c r => if has_sep p then String c (head r) else EmptyString
  end.

(** [s.rstrip("/")] *)
Fixpoint rstrip_sep (s : string) : string :=
  match s with
  | EmptyString => EmptyString
  | String c r =>
      let r' := rstrip_sep r in
      if decide (c = "/"%char) then
        match r' with EmptyString => EmptyString | _ => String c r' end
      else String c r'
  end.

(** [dirname(p)]: the head up to the last separator, without trailing
    separators unless it consists of separators only. *)
Definition dirname (p : string) : string :=
  let h := head p in
  match rstrip_sep h with
  | EmptyString => h
  | stripped => stripped
  end.

End path.

End Py.
Import Py.

(** ** Data model of [bokeh/embed/bundle.py] *)

(** What the code observes of a model class (a subclass of [Model]). *)
Record ModelClass : Type := {
  cls_name : string;            (* qualified name, the identity of the class *)
  cls_module : string;          (* [__module__] *)
  view_module : string;         (* [__view_module__] *)
  has_implementation : bool;    (* [hasattr(_, "__implementation__")] *)
  is_Widget : bool;             (* [issubclass(_, Widget)] *)
  is_TableWidget : bool;        (* [issubclass(_, TableWidget)] *)
  is_Plot : bool                (* [issubclass(_, Plot)] *)
}.

(** A model instance; [output_backend] is read on plots only. *)
Record Model : Type := {
  model_id : nat;               (* object identity *)
  model_class : ModelClass;     (* [obj.__class__] *)
  output_backend : string
}.

#[export] Instance ModelClass_eq_dec : EqDecision ModelClass.
Proof. solve_decision. Defined.
#[export] Instance Model_eq_dec : EqDecision Model.
Proof. solve_decision. Defined.

(** An element of [objs]: a [Model], seen through the set that its
    [references()] returns (the model itself included), or a [Document], seen
    through the [references()] of each of its [roots]. *)
Inductive Root : Type :=
  | AModel (references : list Model)
  | ADocument (roots : list (list Model)).

(** [BaseResources] is defined in [bokeh/resources.py], outside these
    sources. The code reads [mode], [minified], [js_components] and the
    properties [js_files], [js_raw], [hashes], [css_files], [css_raw]; the
    script-side properties are computed from the current [js_components],
    which is why they are functions of it here. *)
Record BaseResources : Type := {
  mode : string;
  minified : bool;
  js_components : list string;
  js_files_of : list string → list string;
  js_raw_of : list string → list string;
  hashes_of : list string → gmap string string;
  css_files : list string;
  css_raw : list string
}.

(** The [resources] argument of [bundle_for_objs_and_resources]: [None], a
    mode name, a [BaseResources], a two-element tuple of optional
    [BaseResources], any other tuple (seen through the [repr] of its items),
    or any other value (seen through its [repr]). *)
Inductive ResourcesArg : Type :=
  | RNone
  | RStr (mode_name : string)
  | RResources (r : BaseResources)
  | RTuple2 (js css : option BaseResources)
  | RTuple (items : list string)
  | ROther (repr : string).

Record ExtensionEmbed : Type := {
  artifact_path : string;
  server_url : string;
  cdn_url : option string
}.

(** The contents of a [Bundle]. An entry of [js_files] is a [str], or [None]
    where the [cdn_url] of an extension without one was appended. *)
Record Bundle : Type := {
  js_files : list (option string);
  js_raw : list string;
  Bundle_css_files : list string;
  Bundle_css_raw : list string;
  hashes : option (gmap string string)
}.

(** ** The process and its environment *)

(** Mutable process-wide state: the [servables] registry of
    [bokeh/resources.py] and the warnings emitted so far. *)
Record Process : Type := {
  servables : gmap string string;
  warnings : list string
}.

(** Code that may raise and may change the process state; the state reached
    when an exception is raised is kept. *)
Definition M (A : Type) : Type := Process → result A * Process.

#[export] Instance M_ret : MRet M := λ A a p, (Ok a, p).
#[export] Instance M_bind : MBind M := λ A B f m p,
  match m p with
  | (Ok a, p') => f a p'
  | (Raise e, p') => (Raise e, p')
  end.

Definition lift {A : Type} (r : result A) : M A := λ p, (r, p).

(** [warnings.warn(msg)] under the default filters. *)
Definition warn (msg : string) : M unit :=
  λ p, (Ok tt, {| servables := servables p; warnings := warnings p ++ [msg] |}).

(** [servables[key] = value] *)
Definition servables_setitem (key value : string) : M unit :=
  λ p, (Ok tt, {| servables := <[key := value]> (servables p); warnings := warnings p |}).

(** What the code reads from outside these two files. *)
Record World : Type := {
  (* [os.path.exists] *)
  exists_ : string → bool;
  (* [json.load] of the file opened at a path; the package metadata fields
     that the code reads are strings *)
  json_load : string → result (gmap string string);
  (* [__import__(name).__file__] *)
  import_file : string → result string;
  (* [Model.model_class_reverse_map.values()] *)
  model_class_reverse_map : list ModelClass;
  (* the order in which a [set] of models is iterated *)
  set_iter : list Model → list Model;
  (* [DEFAULT_SERVER_HTTP_URL] of [bokeh/resources.py] *)
  DEFAULT_SERVER_HTTP_URL : string;
  (* [Resources._inline] of [bokeh/resources.py] *)
  Resources_inline : string → result string;
  (* [Resources(mode=...)] *)
  Resources_new : string → result BaseResources;
  (* [settings.resources(default=...)] *)
  settings_resources : ResourcesArg → ResourcesArg;
  (* [bundle_models] of [bokeh/util/compiler.py] *)
  bundle_models : option (list ModelClass) → option string
}.

(** ** [bokeh/embed/bundle.py] *)

Section bundle.

Context (w : World).

(** [list.remove(x)]: deletes the first occurrence; the callers test
    membership first. *)
Fixpoint list_remove (x : string) (l : list string) : list string :=
  match l with
  | [] => []
  | y :: l' => if decide (y = x) then l' else y :: list_remove x l'
  end.

(** [_all_objs]: the union of the reference sets, iterated in the order the
    runtime chooses. *)
Definition _all_objs (objs : list Root) : list Model :=
  set_iter w
    (foldl (λ all_objs obj,
              match obj with
              | ADocument roots => foldl (λ all_objs root, list_union all_objs root) all_objs roots
              | AModel references => list_union all_objs references
              end) [] objs).

(** [_any] *)
Definition _any (objs : list Root) (query : Model → bool) : bool :=
  existsb (λ obj,
             match obj with
             | ADocument roots => existsb (λ root, existsb query root) roots
             | AModel references => existsb query references
             end) objs.

(** The loop of [_query_extensions], with its [names] set. *)
Fixpoint _query_extensions_loop (query : ModelClass → bool) (all_objs : list Model)
    (names : gset string) : bool :=
  match all_objs with
  | [] => false
  | obj :: rest =>
      if has_implementation (model_class obj) then _query_extensions_loop query rest names
      else
        let name := split_dot_0 (view_module (model_class obj)) in
        if decide (name = "bokeh") then _query_extensions_loop query rest names
        else if decide (name ∈ names) then _query_extensions_loop query rest names
        else
          if existsb (λ model, startswith (cls_module model) name && query model)
               (model_class_reverse_map w)
          then true
          else _query_extensions_loop query rest ({[name]} ∪ names)
  end.

Definition _query_extensions (objs : list Root) (query : ModelClass → bool) : bool :=
  _query_extensions_loop query (_all_objs objs) ∅.

Definition _ext_use_tables (objs : list Root) : bool :=
  _query_extensions objs is_TableWidget.

Definition _ext_use_widgets (objs : list Root) : bool :=
  _query_extensions objs is_Widget.

Definition _use_gl (objs : list Root) : bool :=
  _any objs (λ obj, is_Plot (model_class obj) && bool_decide (output_backend obj = "webgl")).

Definition _use_tables (objs : list Root) : bool :=
  _any objs (λ obj, is_TableWidget (model_class obj)) || _ext_use_tables objs.

Definition _use_widgets (objs : list Root) : bool :=
  _any objs (λ obj, is_Widget (model_class obj)) || _ext_use_widgets objs.

(** The name [artifact] of line 262 is bound neither in [_bundle_extensions]
    nor in the module nor among the builtins: evaluating it raises. *)
Definition artifact : result string := Raise (NameError "artifact").

(** Lines 259-265: the [for ext in extensions: ... else: raise] search. *)
Fixpoint search_dist (base name : string) (extensions : list string) : result (string * string) :=
  match extensions with
  | [] => Raise (ValueError ("can't resolve artifact path for '" +:+ name +:+ "' extension"))
  | ext :: rest =>
      let artifact_path := path.join3 base "dist" (name +:+ ext) in
      let server_path := name +:+ "@latest/dist/" +:+ (name +:+ ext) in
      a ← artifact;
      if exists_ w a then Ok (artifact_path, server_path)
      else search_dist base name rest
  end.

(** Lines 244-266: [artifact_path], [server_path] and [cdn_url] of the
    package [name]. *)
Definition resolve (extensions : list string) (name : string)
    : result (string * string * option string) :=
  file ← import_file w name;
  let base := path.dirname file in
  let package_path := path.join base "package.json" in
  if exists_ w package_path then
    pkg ← json_load w package_path;
    pkg_name ← getitem pkg "name";
    let version := get pkg "version" "latest" in
    main_default ← getitem pkg "main";
    let main := get pkg "module" main_default in
    let artifact_path := path.join base main in
    let server_path := pkg_name +:+ "@^" +:+ version +:+ "/" +:+ main in
    let cdn_url := "https://unpkg.com/" +:+ pkg_name +:+ "@^" +:+ version +:+ "/" +:+ main in
    Ok (artifact_path, server_path, Some cdn_url)
  else
    '(artifact_path, server_path) ← search_dist base name extensions;
    Ok (artifact_path, server_path, None).

(** Lines 268-271: register the artifact and build its [ExtensionEmbed]. *)
Definition embed_extension (extensions : list string) (name : string) : M ExtensionEmbed :=
  let server_prefix := "static/extensions" in
  '(artifact_path, server_path, cdn_url) ← lift (resolve extensions name);
  servables_setitem server_path artifact_path;;
  let server_url := DEFAULT_SERVER_HTTP_URL w +:+ server_prefix +:+ "/" +:+ server_path in
  mret {| artifact_path := artifact_path; server_url := server_url; cdn_url := cdn_url |}.

(** The loop of [_bundle_extensions] over the candidates, with its [names]
    set and its [bundles] list. *)
Fixpoint _bundle_extensions_loop (extensions : list string) (candidates : list ModelClass)
    (names : gset string) (bundles : list ExtensionEmbed) : M (list ExtensionEmbed) :=
  match candidates with
  | [] => mret bundles
  | obj :: rest =>
      if has_implementation obj then _bundle_extensions_loop extensions rest names bundles
      else
        let name := split_dot_0 (view_module obj) in
        if decide (name = "bokeh") then _bundle_extensions_loop extensions rest names bundles
        else if decide (name ∈ names) then _bundle_extensions_loop extensions rest names bundles
        else
          embed ← embed_extension extensions name;
          _bundle_extensions_loop extensions rest ({[name]} ∪ names) (bundles ++ [embed])
  end.

(** The candidates of line 235: the classes of the referenced objects, or
    every registered class when [objs] is [None]. *)
Definition candidates (objs : option (list Root)) : list ModelClass :=
  match objs with
  | Some objs => model_class <$> _all_objs objs
  | None => model_class_reverse_map w
  end.

Definition _bundle_extensions (objs : option (list Root)) (resources : BaseResources)
    : M (list ExtensionEmbed) :=
  let extensions := if minified resources then [".min.js"; ".js"] else [".js"] in
  _bundle_extensions_loop extensions (candidates objs) ∅ [].

(** [f(objs) if objs else True]: [None] and the empty list are false. *)
Definition if_objs (f : list Root → bool) (objs : option (list Root)) : bool :=
  match objs with
  | Some ((_ :: _) as objs) => f objs
  | _ => true
  end.

(** Lines 166-171, one component:
    [if not use and c in js_components: js_components.remove(c)]. *)
Definition remove_unless (use : bool) (component : string) (js_components : list string)
    : list string :=
  if negb use && bool_decide (component ∈ js_components)
  then list_remove component js_components
  else js_components.

(** Lines 165-171: the components of the copied script resources. *)
Definition pruned_components (objs : option (list Root)) (js_components : list string)
    : list string :=
  let use_widgets := if_objs _use_widgets objs in
  let use_tables := if_objs _use_tables objs in
  let use_gl := if_objs _use_gl objs in
  remove_unless use_gl "bokeh-gl"
    (remove_unless use_tables "bokeh-tables"
       (remove_unless use_widgets "bokeh-widgets" js_components)).

Definition with_js_components (r : BaseResources) (components : list string) : BaseResources :=
  {| mode := mode r; minified := minified r; js_components := components;
     js_files_of := js_files_of r; js_raw_of := js_raw_of r; hashes_of := hashes_of r;
     css_files := css_files r; css_raw := css_raw r |}.

(** Lines 135-137: the setting overrides the argument, and a mode name
    stands for the [Resources] of that mode. *)
Definition effective_resources (resources : ResourcesArg) : result ResourcesArg :=
  match settings_resources w resources with
  | RStr mode_name => r ← Resources_new w mode_name; Ok (RResources r)
  | resources => Ok resources
  end.

(** Line 150: [raise ValueError("... got %r" % resources)]. The operator [%]
    takes the items of a tuple as the arguments of the format, which has one
    conversion: a tuple that is not of one item makes the formatting itself
    raise [TypeError], and no [ValueError] is built. *)
Definition invalid_resources {A : Type} (resources : ResourcesArg) : result A :=
  let expected := "expected Resources or a pair of optional Resources, got " in
  match resources with
  | RTuple [] => Raise (TypeError "not enough arguments for format string")
  | RTuple [item] => Raise (ValueError (expected +:+ item))
  | RTuple _ => Raise (TypeError "not all arguments converted during string formatting")
  | ROther repr => Raise (ValueError (expected +:+ repr))
  | _ => Raise (ValueError "expected Resources or a pair of optional Resources")
  end.

(** Lines 139-150: the script and style resources. A [RStr] cannot reach this
    point (lines 136-137 have replaced it). *)
Definition split_resources (resources : ResourcesArg)
    : M (option BaseResources * option BaseResources) :=
  match resources with
  | RNone => mret (None, None)
  | RResources r => mret (Some r, Some r)
  | RTuple2 js_resources css_resources =>
      (if bool_decide (is_Some js_resources) && negb (bool_decide (is_Some css_resources))
       then warn "No Bokeh CSS Resources provided to template. If required you will need to provide them manually."
       else mret tt);;
      (if bool_decide (is_Some css_resources) && negb (bool_decide (is_Some js_resources))
       then warn "No Bokeh JS Resources provided to template. If required you will need to provide them manually."
       else mret tt);;
      mret (js_resources, css_resources)
  | _ => lift (invalid_resources resources)
  end.

(** Line 183: [resources.mode if resources is not None else "inline"], on the
    [resources] of line 135-137; a tuple has no attribute [mode]. *)
Definition resources_mode (resources : ResourcesArg) : result string :=
  match resources with
  | RNone => Ok "inline"
  | RResources r => Ok (mode r)
  | RTuple2 _ _ => Raise (AttributeError "'tuple' object has no attribute 'mode'")
  | RTuple _ => Raise (AttributeError "'tuple' object has no attribute 'mode'")
  | RStr _ => Raise (AttributeError "'str' object has no attribute 'mode'")
  | ROther _ => Raise (AttributeError "object has no attribute 'mode'")
  end.

(** Lines 184-191: where the extensions go, by mode. *)
Definition project_extensions (mode : string) (extensions : list ExtensionEmbed)
    (js_files : list (option string)) (js_raw : list string)
    : result (list (option string) * list string) :=
  if decide (mode = "inline") then
    inlined ← comprehension (λ bundle, Resources_inline w (artifact_path bundle)) extensions;
    Ok (js_files, js_raw ++ inlined)
  else if decide (mode = "server") then
    Ok (js_files ++ ((λ bundle, Some (server_url bundle)) <$> extensions), js_raw)
  else if decide (mode = "cdn") then
    Ok (js_files ++ ((λ bundle, cdn_url bundle) <$> extensions), js_raw)
  else
    Ok (js_files ++ ((λ bundle, Some (artifact_path bundle)) <$> extensions), js_raw).

(** Line 193: [[obj.__class__ for obj in _all_objs(objs)] if objs else None] *)
Definition models_of (objs : option (list Root)) : option (list ModelClass) :=
  match objs with
  | Some ((_ :: _) as objs) => Some (model_class <$> _all_objs objs)
  | _ => None
  end.

Definition bundle_for_objs_and_resources (objs : option (list Root)) (resources : ResourcesArg)
    : M Bundle :=
  resources ← lift (effective_resources resources);
  '(js_resources, css_resources) ← split_resources resources;
  let js_resources :=
    (λ r, with_js_components r (pruned_components objs (js_components r))) <$> js_resources in
  let js_files :=
    from_option (λ r, Some <$> js_files_of r (js_components r)) [] js_resources in
  let js_raw := from_option (λ r, js_raw_of r (js_components r)) [] js_resources in
  let css_files := from_option css_files [] css_resources in
  let css_raw := from_option css_raw [] css_resources in
  '(js_files, js_raw) ←
    match js_resources with
    | Some js_resources =>
        extensions ← _bundle_extensions objs js_resources;
        mode ← lift (resources_mode resources);
        lift (project_extensions mode extensions js_files js_raw)
    | None => mret (js_files, js_raw)
    end;
  let models := models_of objs in
  let js_raw :=
    match bundle_models w models with
    | Some ext => js_raw ++ [ext]
    | None => js_raw
    end in
  mret {| js_files := js_files; js_raw := js_raw;
          Bundle_css_files := css_files; Bundle_css_raw := css_raw;
          hashes := (λ r, hashes_of r (js_components r)) <$> js_resources |}.

End bundle.

(** ** [Bundle.add]

    [add] appends to the list objects that the bundle's attributes refer to.
    [Bundle.of] and [__init__] bind the attributes to the very lists they are
    given, so the lists live in a store and the bundle holds their
    addresses. *)

Module BundleObject.

Section store.

(** The values that artifacts carry and the lists hold. *)
Context {Value : Type}.

Inductive Artifact : Type :=
  | ScriptRef (url type : Value)
  | Script (content type : Value)
  | StyleRef (url : Value)
  | Style (content : Value)
  | Other.

(** The list objects, by address. *)
Definition Store : Type := nat → list Value.

Record t : Type := {
  js_files : nat;
  js_raw : nat;
  css_files : nat;
  css_raw : nat;
  hashes : option (gmap string string)
}.

(** [Bundle.of] *)
Definition of_ (js_files js_raw css_files css_raw : nat) (hashes : option (gmap string string)) : t :=
  {| js_files := js_files; js_raw := js_raw; css_files := css_files; css_raw := css_raw;
     hashes := hashes |}.

(** [l.append(x)] for the list at address [l]. *)
Definition append (l : nat) (x : Value) (s : Store) : Store :=
  λ a, if decide (a = l) then s a ++ [x] else s a.

(** [Bundle.add] *)
Definition add (self : t) (artifact : Artifact) (s : Store) : result unit * Store :=
  match artifact with
  | ScriptRef url _ => (Ok tt, append (js_files self) url s)
  | Script content _ => (Ok tt, append (js_raw self) content s)
  | StyleRef url => (Ok tt, append (css_files self) url s)
  | Style content => (Ok tt, append (css_raw self) content s)
  | Other => (Ok tt, s)
  end.

(** What a bundle holds in a store: its four lists and its hashes. *)
Definition contents (s : Store) (b : t)
    : list Value * list Value * list Value * list Value * option (gmap string string) :=
  (s (js_files b), s (js_raw b), s (css_files b), s (css_raw b), hashes b).

(** The four lists of a bundle are four list objects. *)
Definition separate (b : t) : Prop :=
  NoDup [js_files b; js_raw b; css_files b; css_raw b].

End store.

Arguments Artifact : clear implicits.
Arguments Store : clear implicits.

End BundleObject.

(** ** [bokeh/server/views/blob_handler.py] *)

Module BlobHandler.

(** The handler: its [blobs] and, of the [RequestHandler] it extends, the
    response headers and the chunks written so far. *)
Record t : Type := {
  blobs : gmap string string;
  headers : gmap string string;
  write_buffer : list (list byte)
}.

(** [RequestHandler.set_header] *)
Definition set_header (name value : string) (self : t) : t :=
  {| blobs := blobs self; headers := <[name := value]> (headers self);
     write_buffer := write_buffer self |}.

(** [RequestHandler.write] *)
Definition write (chunk : list byte) (self : t) : t :=
  {| blobs := blobs self; headers := headers self;
     write_buffer := write_buffer self ++ [chunk] |}.

(** [open(path, "rb")] on the files [fs]: a file that [fs] does not hold
    cannot be opened; an opened file is seen through the bytes it holds. *)
Definition open_rb (fs : string → option (list byte)) (path : string) : result (list byte) :=
  match fs path with
  | Some content => Ok content
  | None => Raise (OSError path)
  end.

(** [fp.read()] on an opened file: all its bytes (reading an opened file is
    taken to succeed). *)
Definition read (fp : list byte) : list byte := fp.

(** [BlobHandler.get], in the order of lines 52-58: the lookup, [open], then
    [set_header], [fp.read()] and [write]. *)
Definition get (fs : string → option (list byte)) (self : t) (path : string)
    : result unit * t :=
  match blobs self !! path with
  | Some artifact_path =>
      match open_rb fs artifact_path with
      | Ok fp =>
          let self := set_header "Content-Type" "application/octet-stream" self in
          (Ok tt, write (read fp) self)
      | Raise e => (Raise e, self)
      end
  | None => (Raise (HTTPError 404), self)
  end.

End BlobHandler.

(** ** A small installation, for evaluating the code

    Four third-party packages are installed under [/site]: [foo] and [qux]
    ship a [package.json], [bar] ships only a built [dist/bar.js], and [baz]
    ships neither. *)

Module Installed.

Definition foo_package : gmap string string :=
  <["name" := "foo"]> (<["version" := "1.2.0"]> (<["main" := "dist/foo.js"]> ∅)).

Definition qux_package : gmap string string :=
  <["name" := "qux"]> (<["module" := "dist/qux.esm.js"]> ∅).

Definition files : list string :=
  [ "/site/foo/__init__.py"; "/site/foo/package.json"; "/site/foo/dist/foo.js";
    "/site/qux/__init__.py"; "/site/qux/package.json"; "/site/qux/dist/qux.esm.js";
    "/site/bar/__init__.py"; "/site/bar/dist/bar.js";
    "/site/baz/__init__.py" ].

Definition Gauge : ModelClass :=
  {| cls_name := "foo.models.Gauge"; cls_module := "foo.models"; view_module := "foo.models";
     has_implementation := false; is_Widget := false; is_TableWidget := false;
     is_Plot := false |}.

Definition Knob : ModelClass :=
  {| cls_name := "foo.widgets.Knob"; cls_module := "foo.widgets"; view_module := "foo.widgets";
     has_implementation := false; is_Widget := true; is_TableWidget := false;
     is_Plot := false |}.

Definition Bar : ModelClass :=
  {| cls_name := "bar.Bar"; cls_module := "bar"; view_module := "bar";
     has_implementation := false; is_Widget := false; is_TableWidget := false;
     is_Plot := false |}.

Definition Baz : ModelClass :=
  {| cls_name := "baz.Baz"; cls_module := "baz"; view_module := "baz";
     has_implementation := false; is_Widget := false; is_TableWidget := false;
     is_Plot := false |}.

Definition Qux : ModelClass :=
  {| cls_name := "qux.Qux"; cls_module := "qux"; view_module := "qux";
     has_implementation := false; is_Widget := false; is_TableWidget := false;
     is_Plot := false |}.

Definition Plot : ModelClass :=
  {| cls_name := "bokeh.models.plots.Plot"; cls_module := "bokeh.models.plots";
     view_module := "bokeh.models.plots";
     has_implementation := false; is_Widget := false; is_TableWidget := false;
     is_Plot := true |}.

Definition Custom : ModelClass :=
  {| cls_name := "__main__.Custom"; cls_module := "__main__"; view_module := "__main__";
     has_implementation := true; is_Widget := false; is_TableWidget := false;
     is_Plot := false |}.

Definition instance (id : nat) (c : ModelClass) : Model :=
  {| model_id := id; model_class := c; output_backend := "canvas" |}.

Definition resources (mode : string) : BaseResources :=
  {| mode := mode; minified := true;
     js_components := ["bokeh"; "bokeh-widgets"; "bokeh-tables"; "bokeh-gl"];
     js_files_of := λ components,
       if decide (mode = "inline") then []
       else (λ c, "static/js/" +:+ c +:+ ".min.js") <$> components;
     js_raw_of := λ components,
       if decide (mode = "inline") then (λ c, "/* " +:+ c +:+ " */") <$> components
       else [];
     hashes_of := λ _, ∅;
     css_files := []; css_raw := [] |}.

Definition world : World :=
  {| exists_ := λ p, bool_decide (p ∈ files);
     json_load := λ p,
       if decide (p = "/site/foo/package.json") then Ok foo_package
       else if decide (p = "/site/qux/package.json") then Ok qux_package
       else Raise (OSError p);
     import_file := λ name,
       if bool_decide (name ∈ ["foo"; "qux"; "bar"; "baz"])
       then Ok ("/site/" +:+ name +:+ "/__init__.py")
       else Raise (ImportError name);
     model_class_reverse_map := [Plot; Gauge; Knob; Bar; Baz; Qux];
     set_iter := λ s, s;
     DEFAULT_SERVER_HTTP_URL := "http://localhost:5006/";
     Resources_inline := λ p,
       if bool_decide (p ∈ files) then Ok ("/* " +:+ p +:+ " */") else Raise (OSError p);
     Resources_new := λ mode, Ok (resources mode);
     settings_resources := λ r, r;
     bundle_models := λ _, None |}.

Definition process : Process := {| servables := ∅; warnings := [] |}.

End Installed.

(** ** Specification-level notions *)

(** The top-level package that defines a class. *)
Definition top_package (c : ModelClass) : string := split_dot_0 (view_module c).

(** A candidate that the resolver does not skip: it has no inline
    implementation and is not defined by the core package. *)
Definition third_party (c : ModelClass) : bool :=
  negb (has_implementation c) && negb (bool_decide (top_package c = "bokeh")).

(** The distinct elements of a list, each at its first occurrence. *)
Fixpoint first_occurrences (l : list string) : list string :=
  match l with
  | [] => []
  | x :: l' => x :: filter (λ y, y ≠ x) (first_occurrences l')
  end.

(** The distinct third-party packages among the candidates, in the order in
    which they are first met. *)
Definition extension_packages (candidates : list ModelClass) : list string :=
  first_occurrences (top_package <$> filter (λ c, third_party c = true) candidates).

(** Run [f] on each element in turn and collect the results. *)
Fixpoint for_each {A B : Type} (f : A → M B) (l : list A) : M (list B) :=
  match l with
  | [] => mret []
  | x :: l' => y ← f x; ys ← for_each f l'; mret (y :: ys)
  end.

(** The objects reached by [references()] from a collection of roots. *)
Definition referenced (objs : list Root) : list Model :=
  objs ≫= (λ obj,
    match obj with
    | ADocument roots => mjoin roots
    | AModel references => references
    end).

(** The script provider of a resources configuration. *)
Definition script_provider (resources : ResourcesArg) : option BaseResources :=
  match resources with
  | RResources r => Some r
  | RTuple2 js_resources _ => js_resources
  | _ => None
  end.

(** The raw script that [bundle_models] generates for the objects, if any. *)
Definition generated (w : World) (objs : option (list Root)) : list string :=
  match bundle_models w (models_of w objs) with
  | Some ext => [ext]
  | None => []
  end.

(** An object that pulls in one of the optional subsystems by itself. *)
Definition needs_widgets (o : Model) : bool := is_Widget (model_class o).
Definition needs_tables (o : Model) : bool := is_TableWidget (model_class o).
Definition needs_gl (o : Model) : bool :=
  is_Plot (model_class o) && bool_decide (output_backend o = "webgl").

(** The style provider of a resources configuration. *)
Definition style_provider (resources : ResourcesArg) : option BaseResources :=
  match resources with
  | RResources r => Some r
  | RTuple2 _ css_resources => css_resources
  | _ => None
  end.

(** The reference sets that a collection of roots brings: one per model,
    one per root of a document. *)
Definition reference_sets (objs : list Root) : list (list Model) :=
  objs ≫= (λ obj,
    match obj with
    | ADocument roots => roots
    | AModel references => [references]
    end).

(** A registry after the assignments [servables[k] = v] of a list, in order. *)
Definition register (assignments : list (string * string)) (m : gmap string string)
    : gmap string string :=
  foldl (λ m kv, <[kv.1 := kv.2]> m) m assignments.

(** A process after some assignments to the registry and some warnings. *)
Definition after (assignments : list (string * string)) (emitted : list string)
    (p : Process) : Process :=
  {| servables := register assignments (servables p); warnings := warnings p ++ emitted |}.

(** The descriptor [e] is served under the server path [server_path]. *)
Definition served_at (w : World) (e : ExtensionEmbed) (server_path : string) : Prop :=
  server_url e = DEFAULT_SERVER_HTTP_URL w +:+ "static/extensions/" +:+ server_path.

(** The object [o] is of a third-party package that registers a class
    satisfying [query]. *)
Definition extension_answers (w : World) (query : ModelClass → bool) (o : Model) : Prop :=
  third_party (model_class o) = true
  ∧ ∃ c, c ∈ model_class_reverse_map w
         ∧ startswith (cls_module c) (top_package (model_class o)) = true
         ∧ query c = true.

(** The descriptor of a package, when the package resolves. *)
Definition descriptor (w : World) (extensions : list string) (name : string)
    : option ExtensionEmbed :=
  match resolve w extensions name with
  | Ok (artifact_path, server_path, cdn_url) =>
      Some {| artifact_path := artifact_path;
              server_url := DEFAULT_SERVER_HTTP_URL w +:+ "static/extensions/" +:+ server_path;
              cdn_url := cdn_url |}
  | Raise _ => None
  end.

(** ** The other methods of [Bundle] *)

Module BundleMethods.

Import BundleObject.

(** [sep.join(l)] *)
Fixpoint str_join (sep : string) (l : list string) : string :=
  match l with
  | [] => ""
  | x :: l' =>
      match l' with
      | [] => x
      | _ => x +:+ sep +:+ str_join sep l'
      end
  end.

Definition newline : string := String "010" "".

(** [Bundle.scripts(tag=False)] *)
Definition scripts_untagged (self : t) (s : Store string) : string :=
  str_join newline (s (js_raw self)).

(** [Bundle.js_urls] and [Bundle.css_urls]: the list objects themselves. *)
Definition js_urls (self : t) : nat := js_files self.
Definition css_urls (self : t) : nat := css_files self.

Section heap.

Context {Value : Type}.

(** The list objects together with the next free address. *)
Record Heap : Type := {
  lists : Store Value;
  next : nat
}.

(** Evaluating the literal [[]] creates a list object. *)
Definition new_list (h : Heap) : nat * Heap :=
  (next h,
   {| lists := λ a, if decide (a = next h) then [] else lists h a; next := S (next h) |}).

(** The keyword arguments of [Bundle.__init__]. *)
Record Kwargs : Type := {
  kw_js_files : option nat;
  kw_js_raw : option nat;
  kw_css_files : option nat;
  kw_css_raw : option nat;
  kw_hashes : option (gmap string string)
}.

(** [kwargs.get(key, [])]: the default list is created before the lookup. *)
Definition get_list (given : option nat) (h : Heap) : nat * Heap :=
  let '(fresh, h) := new_list h in (default fresh given, h).

(** [Bundle.__init__] *)
Definition init (kwargs : Kwargs) (h : Heap) : t * Heap :=
  let '(js_files, h) := get_list (kw_js_files kwargs) h in
  let '(js_raw, h) := get_list (kw_js_raw kwargs) h in
  let '(css_files, h) := get_list (kw_css_files kwargs) h in
  let '(css_raw, h) := get_list (kw_css_raw kwargs) h in
  ({| js_files := js_files; js_raw := js_raw; css_files := css_files; css_raw := css_raw;
      hashes := kw_hashes kwargs |}, h).

(** The list objects passed to [__init__]. *)
Definition given (kwargs : Kwargs) : list nat :=
  omap id [kw_js_files kwargs; kw_js_raw kwargs; kw_css_files kwargs; kw_css_raw kwargs].

End heap.

Arguments Heap : clear implicits.

End BundleMethods.

(** * Properties *)

Import Installed.

(** ** The Python prelude on examples *)

Example split_dot_0_dotted : split_dot_0 "foo.models.widgets" = "foo".
Proof. reflexivity. Qed.

Example split_dot_0_plain : split_dot_0 "bokeh" = "bokeh".
Proof. reflexivity. Qed.

Example dirname_of_module : path.dirname "/site/foo/__init__.py" = "/site/foo".
Proof. reflexivity. Qed.

Example dirname_of_root_entry : path.dirname "/x" = "/".
Proof. reflexivity. Qed.

Example dirname_without_separator : path.dirname "foo.py" = "".
Proof. reflexivity. Qed.

Example join_three : path.join3 "/site/bar" "dist" "bar.min.js" = "/site/bar/dist/bar.min.js".
Proof. reflexivity. Qed.

Example join_absolute : path.join "/site/foo" "/opt/foo.js" = "/opt/foo.js".
Proof. reflexivity. Qed.

Example join_after_separator : path.join "/site/foo/" "dist/foo.js" = "/site/foo/dist/foo.js".
Proof. reflexivity. Qed.

Example list_remove_first_only : list_remove "b" ["a"; "b"; "c"; "b"] = ["a"; "c"; "b"].
Proof. reflexivity. Qed.

(** ** The monad *)

Lemma M_bind_unfold {A B : Type} (m : M A) (f : A → M B) (p : Process) :
  (m ≫= f) p = match m p with
               | (Ok a, p') => f a p'
               | (Raise e, p') => (Raise e, p')
               end.
Proof. reflexivity. Qed.

Lemma M_ret_unfold {A : Type} (a : A) (p : Process) : (mret a : M A) p = (Ok a, p).
Proof. reflexivity. Qed.

Lemma for_each_length {A B : Type} (f : A → M B) (l : list A) (p p' : Process) (ys : list B) :
  for_each f l p = (Ok ys, p') → length ys = length l.
Proof.
  revert p p' ys. induction l as [|x l IH]; intros p p' ys; simpl.
  - intros [= <- _]. reflexivity.
  - rewrite M_bind_unfold. destruct (f x p) as [[y|e] p1]; [|discriminate].
    rewrite M_bind_unfold. destruct (for_each f l p1) as [[zs|e] p2] eqn:E; [|discriminate].
    intros [= <- _]. simpl. f_equal. by eapply IH.
Qed.

(** ** Deduplication by package name *)

Lemma first_occurrences_subset (l : list string) (x : string) :
  x ∈ first_occurrences l ↔ x ∈ l.
Proof.
  induction l as [|y l IH]; simpl; [done|].
  rewrite !elem_of_cons, list_elem_of_filter, IH.
  destruct (decide (x = y)); naive_solver.
Qed.

Lemma first_occurrences_NoDup (l : list string) : NoDup (first_occurrences l).
Proof.
  induction l as [|y l IH]; simpl; constructor.
  - rewrite list_elem_of_filter. naive_solver.
  - by apply NoDup_filter.
Qed.

Lemma filter_filter_seen (names : gset string) (name : string) (l : list string) :
  name ∈ names →
  filter (λ y, y ∉ names) (filter (λ y, y ≠ name) l) = filter (λ y, y ∉ names) l.
Proof.
  intros Hin. induction l as [|y l IH]; [done|].
  rewrite !filter_cons. destruct (decide (y ≠ name)) as [Hne|Heq].
  - rewrite filter_cons. destruct (decide (y ∉ names)); by rewrite IH.
  - apply dec_stable in Heq. subst y.
    destruct (decide (name ∉ names)); [done|]. exact IH.
Qed.

Lemma filter_filter_fresh (names : gset string) (name : string) (l : list string) :
  filter (λ y, y ∉ names) (filter (λ y, y ≠ name) l) = filter (λ y, y ∉ {[name]} ∪ names) l.
Proof.
  induction l as [|y l IH]; [done|].
  rewrite !filter_cons. destruct (decide (y ≠ name)) as [Hne|Heq].
  - rewrite filter_cons. destruct (decide (y ∉ names)), (decide (y ∉ {[name]} ∪ names));
      rewrite ?IH; try done; set_solver.
  - apply dec_stable in Heq. subst y.
    destruct (decide (name ∉ {[name]} ∪ names)); [set_solver|]. exact IH.
Qed.

Section bundle_extensions.

Context (w : World) (extensions : list string).

Lemma bundle_extensions_loop_spec (cands : list ModelClass) (names : gset string)
    (bundles : list ExtensionEmbed) (p : Process) :
  _bundle_extensions_loop w extensions cands names bundles p =
  (for_each (embed_extension w extensions)
     (filter (λ y, y ∉ names) (extension_packages cands))
     ≫= λ embeds, mret (bundles ++ embeds)) p.
Proof.
  revert names bundles p. induction cands as [|obj rest IH]; intros names bundles p.
  - cbn. rewrite M_bind_unfold, !M_ret_unfold. by rewrite app_nil_r.
  - cbn [_bundle_extensions_loop]. unfold extension_packages.
    destruct (has_implementation obj) eqn:Himpl.
    { rewrite filter_cons_False; [apply IH|].
      unfold third_party. by rewrite Himpl. }
    destruct (decide (split_dot_0 (view_module obj) = "bokeh")) as [Hcore|Hcore].
    { rewrite filter_cons_False; [apply IH|].
      unfold third_party, top_package. rewrite Himpl, bool_decide_eq_true_2; done. }
    rewrite filter_cons_True
      by (unfold third_party, top_package; rewrite Himpl, bool_decide_eq_false_2; done).
    rewrite fmap_cons. cbn [first_occurrences]. rewrite filter_cons.
    fold (top_package obj) in *. set (name := top_package obj) in *.
    destruct (decide (name ∈ names)) as [Hseen|Hfresh].
    + destruct (decide (name ∉ names)) as [Hn|_]; [by destruct Hn|].
      rewrite filter_filter_seen by done. apply IH.
    + destruct (decide (name ∉ names)) as [_|Hn]; [|by destruct Hn].
      rewrite filter_filter_fresh. cbn [for_each].
      rewrite !M_bind_unfold.
      destruct (embed_extension w extensions name p) as [[embed|e] p1]; [|done].
      rewrite IH, !M_bind_unfold. unfold extension_packages.
      match goal with |- context [for_each ?f ?l p1] =>
        destruct (for_each f l p1) as [[embeds|e] p2] end; [|done].
      rewrite !M_ret_unfold. by rewrite <- app_assoc.
Qed.

End bundle_extensions.

Lemma filter_unseen (names : gset string) (l : list string) :
  names = ∅ → filter (λ y, y ∉ names) l = l.
Proof.
  intros ->. induction l as [|y l IH]; [done|].
  rewrite filter_cons_True by set_solver. by rewrite IH.
Qed.

Lemma bind_ret_app_nil {A : Type} (m : M (list A)) (p : Process) :
  (m ≫= λ xs, mret ([] ++ xs)) p = m p.
Proof. rewrite M_bind_unfold. by destruct (m p) as [[xs|e] p']. Qed.

Lemma extension_packages_spec (cands : list ModelClass) (name : string) :
  name ∈ extension_packages cands ↔
  ∃ c, c ∈ cands ∧ has_implementation c = false ∧ top_package c ≠ "bokeh" ∧ top_package c = name.
Proof.
  unfold extension_packages. rewrite first_occurrences_subset, list_elem_of_fmap.
  split.
  - intros (c & -> & [Hc Hin]%list_elem_of_filter). exists c.
    unfold third_party in Hc. apply andb_true_iff in Hc as [Himpl Hcore].
    apply negb_true_iff in Himpl, Hcore. apply bool_decide_eq_false in Hcore. done.
  - intros (c & Hin & Himpl & Hcore & <-). exists c. split; [done|].
    apply list_elem_of_filter. split; [|done].
    unfold third_party. rewrite Himpl, bool_decide_eq_false_2; done.
Qed.

Lemma bundle_extensions_as_for_each (w : World) (objs : option (list Root))
    (resources : BaseResources) (p : Process) :
  _bundle_extensions w objs resources p
  = for_each (embed_extension w (if minified resources then [".min.js"; ".js"] else [".js"]))
      (extension_packages (candidates w objs)) p.
Proof.
  unfold _bundle_extensions.
  rewrite bundle_extensions_loop_spec, filter_unseen by done. apply bind_ret_app_nil.
Qed.

Lemma third_party_extension_package (cands : list ModelClass) (c : ModelClass) :
  c ∈ cands → third_party c = true → top_package c ∈ extension_packages cands.
Proof.
  intros Hc Hthird. unfold extension_packages.
  apply first_occurrences_subset, list_elem_of_fmap. exists c. split; [done|].
  by apply list_elem_of_filter.
Qed.

(** C7. In every call, [_bundle_extensions] resolves exactly the distinct
    top-level packages of its candidates, each once and in the order in which
    it is first met, leaving out the candidates that carry an
    [__implementation__] and those defined by the package [bokeh]: it emits
    at most one descriptor per package, and none for a skipped candidate. *)
Theorem bundle_extensions_one_per_package (w : World) (objs : option (list Root))
    (resources : BaseResources) (p : Process) :
  let extensions := if minified resources then [".min.js"; ".js"] else [".js"] in
  let packages := extension_packages (candidates w objs) in
  _bundle_extensions w objs resources p = for_each (embed_extension w extensions) packages p
  ∧ NoDup packages
  ∧ (∀ name, name ∈ packages ↔
       ∃ c, c ∈ candidates w objs ∧ has_implementation c = false
            ∧ top_package c ≠ "bokeh" ∧ top_package c = name)
  ∧ (∀ bundles p', _bundle_extensions w objs resources p = (Ok bundles, p') →
       length bundles = length packages).
Proof.
  intros extensions packages.
  assert (Hspec : _bundle_extensions w objs resources p
                  = for_each (embed_extension w extensions) packages p)
    by apply bundle_extensions_as_for_each.
  split_and!.
  - exact Hspec.
  - apply first_occurrences_NoDup.
  - apply extension_packages_spec.
  - intros bundles p'. rewrite Hspec. apply for_each_length.
Qed.

Lemma bundle_extensions_one_per_package_witness :
  let objs := Some [AModel [instance 1 Gauge; instance 2 Installed.Plot; instance 3 Custom;
                            instance 4 Knob; instance 5 Qux; instance 6 Gauge]] in
  extension_packages (candidates world objs) = ["foo"; "qux"]
  ∧ _bundle_extensions world objs (resources "cdn") process
    = for_each (embed_extension world [".min.js"; ".js"]) ["foo"; "qux"] process.
Proof.
  split; [reflexivity|].
  exact (proj1 (bundle_extensions_one_per_package world _ (resources "cdn") process)).
Defined.

(** ** Resolution of one package *)

Section resolve.

Context (w : World).

Lemma search_dist_unbound_name (base name ext : string) (rest : list string) :
  search_dist w base name (ext :: rest) = Raise (NameError "artifact").
Proof. reflexivity. Qed.

Lemma resolve_without_metadata (is_minified : bool) (name file : string) :
  import_file w name = Ok file →
  exists_ w (path.join (path.dirname file) "package.json") = false →
  resolve w (if is_minified then [".min.js"; ".js"] else [".js"]) name
  = Raise (NameError "artifact").
Proof.
  intros Himport Hmeta. unfold resolve. rewrite Himport.
  cbn [mbind result_bind]. rewrite Hmeta.
  by destruct is_minified.
Qed.

End resolve.

Lemma for_each_raises {A B : Type} (f : A → M B) (l : list A) (x : A) :
  x ∈ l → (∀ p, ∃ e, f x p = (Raise e, p)) → ∀ p, ∃ e p', for_each f l p = (Raise e, p').
Proof.
  intros Hx Hraise. induction l as [|y l IH]; intros p; [by apply elem_of_nil in Hx|].
  cbn [for_each]. rewrite M_bind_unfold.
  destruct (f y p) as [[b|e] p1] eqn:Hy; [|eauto].
  apply elem_of_cons in Hx as [->|Hx].
  - destruct (Hraise p) as [e He]. congruence.
  - destruct (IH Hx p1) as (e & p2 & He). rewrite M_bind_unfold, He. eauto.
Qed.

(** A package without [package.json] fails the whole call, whatever its
    [dist] directory holds and wherever its candidate stands. *)
Lemma bundle_extensions_without_metadata (w : World) (objs : option (list Root))
    (resources : BaseResources) (c : ModelClass) (file : string) :
  c ∈ candidates w objs →
  third_party c = true →
  import_file w (top_package c) = Ok file →
  exists_ w (path.join (path.dirname file) "package.json") = false →
  ∀ p, ∃ e p', _bundle_extensions w objs resources p = (Raise e, p').
Proof.
  intros Hc Hthird Himport Hmeta p.
  rewrite bundle_extensions_as_for_each.
  apply for_each_raises with (x := top_package c).
  - by apply third_party_extension_package.
  - intros p0. exists (NameError "artifact"). unfold embed_extension.
    rewrite M_bind_unfold. unfold lift.
    by rewrite (resolve_without_metadata w (minified resources) _ file).
Qed.

(** Resolution from metadata that declares ["main"]: the descriptor has the
    package root joined with the entry point as its [artifact_path], is
    registered under the server path [{name}@^{version}/{entry}], which is
    also the tail of its [server_url], and has the [cdn_url]
    [https://unpkg.com/{name}@^{version}/{entry}]; the version is ["latest"]
    when absent and ["module"] is preferred over ["main"]. *)
Theorem embed_extension_from_metadata (w : World) (extensions : list string)
    (name file : string) (pkg : gmap string string) (pkg_name main : string) (p : Process) :
  import_file w name = Ok file →
  let base := path.dirname file in
  exists_ w (path.join base "package.json") = true →
  json_load w (path.join base "package.json") = Ok pkg →
  pkg !! "name" = Some pkg_name →
  pkg !! "main" = Some main →
  let version := default "latest" (pkg !! "version") in
  let entry := default main (pkg !! "module") in
  let server_path := pkg_name +:+ "@^" +:+ version +:+ "/" +:+ entry in
  resolve w extensions name
  = Ok (path.join base entry, server_path, Some ("https://unpkg.com/" +:+ server_path))
  ∧ embed_extension w extensions name p
    = (Ok {| artifact_path := path.join base entry;
             server_url := DEFAULT_SERVER_HTTP_URL w +:+ "static/extensions/" +:+ server_path;
             cdn_url := Some ("https://unpkg.com/" +:+ server_path) |},
       {| servables := <[server_path := path.join base entry]> (servables p);
          warnings := warnings p |}).
Proof.
  intros Himport base Hexists Hload Hname Hmain version entry server_path.
  assert (Hresolve : resolve w extensions name
    = Ok (path.join base entry, server_path, Some ("https://unpkg.com/" +:+ server_path))).
  { unfold resolve. rewrite Himport. cbn [mbind result_bind]. fold base.
    rewrite Hexists, Hload. cbn [mbind result_bind].
    unfold getitem. rewrite Hname, Hmain. reflexivity. }
  split; [exact Hresolve|].
  unfold embed_extension. rewrite M_bind_unfold. unfold lift. rewrite Hresolve.
  reflexivity.
Qed.

Lemma embed_extension_from_metadata_witness :
  embed_extension world [".js"] "foo" process
  = (Ok {| artifact_path := "/site/foo/dist/foo.js";
           server_url := "http://localhost:5006/static/extensions/foo@^1.2.0/dist/foo.js";
           cdn_url := Some "https://unpkg.com/foo@^1.2.0/dist/foo.js" |},
     {| servables := <["foo@^1.2.0/dist/foo.js" := "/site/foo/dist/foo.js"]> ∅;
        warnings := [] |}).
Proof.
  exact (proj2 (embed_extension_from_metadata world [".js"] "foo" "/site/foo/__init__.py"
                  foo_package "foo" "dist/foo.js" process
                  eq_refl eq_refl eq_refl eq_refl eq_refl)).
Defined.

(** C1. The package [qux] has a [package.json] that declares its name and
    its entry point as ["module"], and nothing else. The resolver produces no
    descriptor: line 254 evaluates the default [pkg["main"]] before
    [pkg.get("module", ...)] is called, and the call raises
    [KeyError('main')]. *)
Lemma module_only_metadata_raises :
  json_load world "/site/qux/package.json" = Ok qux_package
  ∧ qux_package !! "name" = Some "qux"
  ∧ qux_package !! "version" = None
  ∧ qux_package !! "module" = Some "dist/qux.esm.js"
  ∧ embed_extension world [".js"] "qux" process = (Raise (KeyError "main"), process).
Proof. split_and!; reflexivity. Qed.

(** C2. The package [bar] has no [package.json] and no [dist/bar.min.js] but
    has [dist/bar.js]; minified resources are requested. The resolver does not
    fall back to [dist/bar.js]: the existence test of line 262 names the
    unbound [artifact], and the call raises [NameError]. *)
Example unminified_fallback_raises :
  exists_ world "/site/bar/package.json" = false
  ∧ exists_ world "/site/bar/dist/bar.min.js" = false
  ∧ exists_ world "/site/bar/dist/bar.js" = true
  ∧ minified (resources "server") = true
  ∧ _bundle_extensions world (Some [AModel [instance 1 Bar]]) (resources "server") process
    = (Raise (NameError "artifact"), process).
Proof. split_and!; reflexivity. Qed.

(** C3. The package [baz] has neither a [package.json] nor a built artifact.
    The call fails and returns no descriptor, but with the [NameError] of
    line 262, not with the [ValueError] of line 265. *)
Example missing_artifact_raises :
  exists_ world "/site/baz/package.json" = false
  ∧ exists_ world "/site/baz/dist/baz.min.js" = false
  ∧ exists_ world "/site/baz/dist/baz.js" = false
  ∧ _bundle_extensions world (Some [AModel [instance 1 Baz]]) (resources "server") process
    = (Raise (NameError "artifact"), process)
  ∧ ∀ msg, fst (_bundle_extensions world (Some [AModel [instance 1 Baz]])
                  (resources "server") process) ≠ Raise (ValueError msg).
Proof. split_and!; try reflexivity. intros msg. discriminate. Qed.

(** ** Assembly of the bundle *)

Lemma comprehension_Forall2 {A B : Type} (f : A → result B) (l : list A) (ys : list B) :
  Forall2 (λ x y, f x = Ok y) l ys → comprehension f l = Ok ys.
Proof.
  induction 1 as [|x y l ys Hx _ IH]; [done|].
  cbn [comprehension]. rewrite Hx. cbn [mbind result_bind]. by rewrite IH.
Qed.

Section assembly.

Context (w : World).

(** With a single provider [r], assembly is the resolution of the extensions
    followed by their projection. *)
Lemma bundle_single_provider (objs : option (list Root)) (resources : ResourcesArg)
    (r : BaseResources) (p : Process) :
  effective_resources w resources = Ok (RResources r) →
  let components := pruned_components w objs (js_components r) in
  bundle_for_objs_and_resources w objs resources p =
  match _bundle_extensions w objs (with_js_components r components) p with
  | (Ok extensions, p') =>
      match project_extensions w (mode r) extensions
              (Some <$> js_files_of r components) (js_raw_of r components) with
      | Ok (js_files, js_raw) =>
          (Ok {| js_files := js_files; js_raw := js_raw ++ generated w objs;
                 Bundle_css_files := css_files r; Bundle_css_raw := css_raw r;
                 hashes := Some (hashes_of r components) |}, p')
      | Raise e => (Raise e, p')
      end
  | (Raise e, p') => (Raise e, p')
  end.
Proof.
  intros Heff components. unfold bundle_for_objs_and_resources.
  rewrite M_bind_unfold. unfold lift at 1. rewrite Heff.
  rewrite M_bind_unfold. cbn [split_resources]. rewrite M_ret_unfold.
  cbn [fmap option_fmap option_map from_option with_js_components js_components
       js_files_of js_raw_of hashes_of]. fold components.
  rewrite !M_bind_unfold.
  destruct (_bundle_extensions w objs (with_js_components r components) p)
    as [[extensions|e] p1]; [|done].
  unfold lift. cbn [resources_mode]. rewrite M_bind_unfold.
  destruct (project_extensions w (mode r) extensions _ _) as [[files raw]|e]; [|done].
  rewrite M_ret_unfold. unfold generated.
  destruct (bundle_models w (models_of w objs)); [done|]. by rewrite app_nil_r.
Qed.

End assembly.

Lemma project_extensions_extends (w : World) (mode : string) (extensions : list ExtensionEmbed)
    (files files' : list (option string)) (raw raw' : list string) :
  project_extensions w mode extensions files raw = Ok (files', raw') →
  ∃ more, files' = files ++ more.
Proof.
  unfold project_extensions. repeat case_decide.
  - destruct (comprehension _ extensions); [|done].
    intros [= <- _]. exists []. by rewrite app_nil_r.
  - intros [= <- _]. eauto.
  - intros [= <- _]. eauto.
  - intros [= <- _]. eauto.
Qed.

Lemma invalid_resources_raises {A : Type} (resources : ResourcesArg) :
  ∃ e, @invalid_resources A resources = Raise e.
Proof.
  destruct resources as [|mode_name|r|js css|[|item [|item' items]]|repr]; cbn; eauto.
Qed.

Lemma effective_resources_not_str (w : World) (resources : ResourcesArg) (mode_name : string) :
  effective_resources w resources ≠ Ok (RStr mode_name).
Proof.
  unfold effective_resources. destruct (settings_resources w resources); try done.
  by destruct (Resources_new w _).
Qed.

(** Lines 142-148 never raise: a pair is split as it is, after at most one
    warning. *)
Lemma split_resources_pair (js css : option BaseResources) (p : Process) :
  ∃ p', split_resources (RTuple2 js css) p = (Ok (js, css), p').
Proof. destruct js, css; cbn; eauto. Qed.

(** A pair that supplies a script provider never yields a bundle: line 183
    reads [mode] from the pair itself. *)
Lemma script_pair_raises (w : World) (objs : option (list Root)) (resources : ResourcesArg)
    (js : BaseResources) (css : option BaseResources) (p : Process) :
  effective_resources w resources = Ok (RTuple2 (Some js) css) →
  ∃ e p', bundle_for_objs_and_resources w objs resources p = (Raise e, p').
Proof.
  intros Heff. unfold bundle_for_objs_and_resources.
  rewrite M_bind_unfold. unfold lift at 1. rewrite Heff.
  destruct (split_resources_pair (Some js) css p) as (p2 & Hsplit).
  rewrite M_bind_unfold, Hsplit.
  cbn [fmap option_fmap option_map from_option]. rewrite !M_bind_unfold.
  destruct (_bundle_extensions w objs _ p2) as [[extensions|e] p3]; [|eauto].
  unfold lift. cbn [resources_mode]. eauto.
Qed.

(** A configuration that is neither a provider nor a valid pair fails the
    call at line 150, before anything else is done. *)
Lemma bundle_invalid_resources (w : World) (objs : option (list Root))
    (resources res : ResourcesArg) (p : Process) :
  effective_resources w resources = Ok res →
  (∃ items, res = RTuple items) ∨ (∃ repr, res = ROther repr) →
  ∃ e, @invalid_resources (option BaseResources * option BaseResources) res = Raise e
       ∧ bundle_for_objs_and_resources w objs resources p = (Raise e, p).
Proof.
  intros Heff Hres. unfold bundle_for_objs_and_resources.
  rewrite M_bind_unfold. unfold lift at 1. rewrite Heff. rewrite M_bind_unfold.
  destruct (invalid_resources_raises
              (A := option BaseResources * option BaseResources) res) as [e He].
  exists e. split; [done|].
  destruct Hres as [[items ->]|[repr ->]]; cbn [split_resources]; unfold lift;
    by rewrite He.
Qed.

Lemma bundle_js_files_prefix (w : World) (objs : option (list Root))
    (resources res : ResourcesArg) (p p' : Process) (b : Bundle) :
  effective_resources w resources = Ok res →
  bundle_for_objs_and_resources w objs resources p = (Ok b, p') →
  ∃ more,
    js_files b =
    from_option (λ r, Some <$> js_files_of r (pruned_components w objs (js_components r)))
      [] (script_provider res) ++ more.
Proof.
  intros Heff Hb. destruct res as [|mode_name|r|[js|] css|items|repr].
  - revert Hb. unfold bundle_for_objs_and_resources.
    rewrite M_bind_unfold. unfold lift at 1. rewrite Heff. cbn.
    intros [= <- _]. by exists [].
  - by apply effective_resources_not_str in Heff.
  - rewrite (bundle_single_provider w objs resources r p Heff) in Hb.
    destruct (_bundle_extensions w objs _ p) as [[extensions|e] p1]; [|done].
    destruct (project_extensions w (mode r) extensions _ _) as [[files raw]|e] eqn:Hproj;
      [|done].
    injection Hb as <- _. cbn [js_files script_provider from_option].
    by eapply project_extensions_extends.
  - destruct (script_pair_raises w objs resources js css p Heff) as (e & p1 & Hraise).
    congruence.
  - revert Hb. unfold bundle_for_objs_and_resources.
    rewrite M_bind_unfold. unfold lift at 1. rewrite Heff.
    destruct (split_resources_pair None css p) as (p2 & Hsplit).
    rewrite M_bind_unfold, Hsplit. cbn. intros [= <- _]. by exists [].
  - destruct (bundle_invalid_resources w objs resources (RTuple items) p Heff)
      as (e & _ & Hraise); [eauto|congruence].
  - destruct (bundle_invalid_resources w objs resources (ROther repr) p Heff)
      as (e & _ & Hraise); [eauto|congruence].
Qed.

(** With a single provider [r] and the extensions the resolver returned,
    the bundle holds the provider's own files and raw scripts followed by the
    projection of the extensions: as raw scripts, each the inlined content of
    an [artifact_path], in mode ["inline"] (and then as no file reference); as
    file references otherwise, which are the [server_url]s in mode ["server"],
    the [cdn_url]s in mode ["cdn"], and the [artifact_path]s verbatim in any
    other mode. *)
Theorem extensions_projected_by_mode (w : World) (objs : option (list Root))
    (resources : ResourcesArg) (r : BaseResources) (p p' : Process)
    (extensions : list ExtensionEmbed) :
  effective_resources w resources = Ok (RResources r) →
  let components := pruned_components w objs (js_components r) in
  _bundle_extensions w objs (with_js_components r components) p = (Ok extensions, p') →
  let core_files := Some <$> js_files_of r components in
  let core_raw := js_raw_of r components in
  let outcome := bundle_for_objs_and_resources w objs resources p in
  (mode r = "inline" →
   ∀ contents,
     Forall2 (λ e c, Resources_inline w (artifact_path e) = Ok c) extensions contents →
     ∃ b, outcome = (Ok b, p') ∧ js_files b = core_files
          ∧ js_raw b = core_raw ++ contents ++ generated w objs)
  ∧ (mode r = "server" →
     ∃ b, outcome = (Ok b, p')
          ∧ js_files b = core_files ++ ((λ e, Some (server_url e)) <$> extensions)
          ∧ js_raw b = core_raw ++ generated w objs)
  ∧ (mode r = "cdn" →
     ∃ b, outcome = (Ok b, p')
          ∧ js_files b = core_files ++ (cdn_url <$> extensions)
          ∧ js_raw b = core_raw ++ generated w objs)
  ∧ (mode r ∉ ["inline"; "server"; "cdn"] →
     ∃ b, outcome = (Ok b, p')
          ∧ js_files b = core_files ++ ((λ e, Some (artifact_path e)) <$> extensions)
          ∧ js_raw b = core_raw ++ generated w objs).
Proof.
  intros Heff components Hext core_files core_raw outcome.
  assert (Hout := bundle_single_provider w objs resources r p Heff).
  cbv zeta in Hout. fold components outcome in Hout. rewrite Hext in Hout.
  fold core_files core_raw in Hout. unfold project_extensions in Hout.
  split_and!.
  - intros Hmode contents Hcontents. rewrite Hmode in Hout.
    rewrite decide_True in Hout by done.
    rewrite (comprehension_Forall2 _ _ _ Hcontents) in Hout. cbn [mbind result_bind] in Hout.
    eexists. split; [exact Hout|]. cbn [js_files js_raw]. by rewrite <- app_assoc.
  - intros Hmode. rewrite Hmode in Hout.
    rewrite decide_False, decide_True in Hout by done.
    eexists. split; [exact Hout|]. done.
  - intros Hmode. rewrite Hmode in Hout.
    rewrite !decide_False, decide_True in Hout by done.
    eexists. split; [exact Hout|]. done.
  - intros Hmode. rewrite !decide_False in Hout by set_solver.
    eexists. split; [exact Hout|]. done.
Qed.

Lemma extensions_projected_by_mode_witness :
  let objs := Some [AModel [instance 1 Gauge]] in
  let registered :=
    {| servables := <["foo@^1.2.0/dist/foo.js" := "/site/foo/dist/foo.js"]> ∅;
       warnings := [] |} in
  (∃ b, bundle_for_objs_and_resources world objs (RStr "inline") process = (Ok b, registered)
        ∧ js_files b = []
        ∧ js_raw b = ["/* bokeh */"; "/* bokeh-widgets */"; "/* /site/foo/dist/foo.js */"])
  ∧ (∃ b, bundle_for_objs_and_resources world objs (RStr "server") process = (Ok b, registered)
          ∧ js_files b = [Some "static/js/bokeh.min.js"; Some "static/js/bokeh-widgets.min.js";
                          Some "http://localhost:5006/static/extensions/foo@^1.2.0/dist/foo.js"]
          ∧ js_raw b = [])
  ∧ (∃ b, bundle_for_objs_and_resources world objs (RStr "cdn") process = (Ok b, registered)
          ∧ js_files b = [Some "static/js/bokeh.min.js"; Some "static/js/bokeh-widgets.min.js";
                          Some "https://unpkg.com/foo@^1.2.0/dist/foo.js"]
          ∧ js_raw b = [])
  ∧ (∃ b, bundle_for_objs_and_resources world objs (RStr "relative") process = (Ok b, registered)
          ∧ js_files b = [Some "static/js/bokeh.min.js"; Some "static/js/bokeh-widgets.min.js";
                          Some "/site/foo/dist/foo.js"]
          ∧ js_raw b = []).
Proof.
  intros objs registered.
  pose (foo := {| artifact_path := "/site/foo/dist/foo.js";
                  server_url := "http://localhost:5006/static/extensions/foo@^1.2.0/dist/foo.js";
                  cdn_url := Some "https://unpkg.com/foo@^1.2.0/dist/foo.js" |}).
  split_and!.
  - exact (proj1 (extensions_projected_by_mode world objs (RStr "inline") (resources "inline")
                    process registered [foo] eq_refl eq_refl)
             eq_refl ["/* /site/foo/dist/foo.js */"]
             ltac:(repeat constructor)).
  - exact (proj1 (proj2 (extensions_projected_by_mode world objs (RStr "server")
                           (resources "server") process registered [foo] eq_refl eq_refl))
             eq_refl).
  - exact (proj1 (proj2 (proj2 (extensions_projected_by_mode world objs (RStr "cdn")
                                  (resources "cdn") process registered [foo] eq_refl eq_refl)))
             eq_refl).
  - refine (proj2 (proj2 (proj2 (extensions_projected_by_mode world objs (RStr "relative")
                                   (resources "relative") process registered [foo]
                                   eq_refl eq_refl))) _).
    intros Hmode. apply list_elem_of_In in Hmode. simpl in Hmode.
    destruct Hmode as [H|[H|[H|[]]]]; discriminate H.
Defined.

(** C4. A pair of providers in mode ["cdn"] and one object of the package
    [foo]: the extension resolves to its descriptor and is registered, and
    then nothing is projected into the bundle: line 183 reads [mode] from the
    pair, not from the script provider, and the call raises
    [AttributeError]. *)
Example pair_projection_raises :
  let js := resources "cdn" in
  let objs := Some [AModel [instance 1 Gauge]] in
  let foo := {| artifact_path := "/site/foo/dist/foo.js";
                server_url := "http://localhost:5006/static/extensions/foo@^1.2.0/dist/foo.js";
                cdn_url := Some "https://unpkg.com/foo@^1.2.0/dist/foo.js" |} in
  let registered :=
    {| servables := <["foo@^1.2.0/dist/foo.js" := "/site/foo/dist/foo.js"]> ∅;
       warnings := [] |} in
  mode js = "cdn"
  ∧ split_resources (RTuple2 (Some js) (Some js)) process = (Ok (Some js, Some js), process)
  ∧ _bundle_extensions world objs
      (with_js_components js (pruned_components world objs (js_components js))) process
    = (Ok [foo], registered)
  ∧ bundle_for_objs_and_resources world objs (RTuple2 (Some js) (Some js)) process
    = (Raise (AttributeError "'tuple' object has no attribute 'mode'"), registered).
Proof. split_and!; reflexivity. Qed.

(** ** Feature detection and pruning *)





Lemma remove_unless_used (x : string) (l : list string) : remove_unless true x l = l.
Proof. reflexivity. Qed.


Section features.

Context (w : World).



End features.

(** C5. When [objs] is [None] or empty, the three feature flags are true
    whatever the resources are, so nothing is removed from the script
    components: a bundle that is returned starts with the files of all the
    components of its script provider. *)
Theorem no_objects_all_features (w : World) (objs : option (list Root)) :
  objs = None ∨ objs = Some [] →
  if_objs (_use_widgets w) objs = true
  ∧ if_objs (_use_tables w) objs = true
  ∧ if_objs _use_gl objs = true
  ∧ (∀ components, pruned_components w objs components = components)
  ∧ (∀ resources res p b p',
       effective_resources w resources = Ok res →
       bundle_for_objs_and_resources w objs resources p = (Ok b, p') →
       ∃ more,
         js_files b =
         from_option (λ r, Some <$> js_files_of r (js_components r)) [] (script_provider res)
         ++ more).
Proof.
  intros Hobjs.
  assert (Hflags : ∀ f, if_objs f objs = true) by (by destruct Hobjs as [-> | ->]).
  assert (Hpruned : ∀ components, pruned_components w objs components = components).
  { intros components. unfold pruned_components. by rewrite !Hflags. }
  split_and!; try apply Hflags; [exact Hpruned|].
  intros resources res p b p' Heff Hb.
  destruct (bundle_js_files_prefix w objs resources res p p' b Heff Hb) as [more Hfiles].
  exists more. rewrite Hfiles. f_equal.
  destruct (script_provider res) as [r|]; [|done]. cbn [from_option]. by rewrite Hpruned.
Qed.

Lemma no_objects_all_features_witness :
  if_objs (_use_widgets world) (Some []) = true
  ∧ if_objs (_use_tables world) (Some []) = true
  ∧ if_objs _use_gl (Some []) = true
  ∧ pruned_components world (Some [])
      (js_components (resources "cdn")) = ["bokeh"; "bokeh-widgets"; "bokeh-tables"; "bokeh-gl"]
  ∧ ∃ b, bundle_for_objs_and_resources world (Some []) (RStr "cdn") process = (Ok b, process)
         ∧ js_files b = [Some "static/js/bokeh.min.js"; Some "static/js/bokeh-widgets.min.js";
                         Some "static/js/bokeh-tables.min.js"; Some "static/js/bokeh-gl.min.js"].
Proof.
  destruct (no_objects_all_features world (Some []) (or_intror eq_refl))
    as (Hwidgets & Htables & Hgl & Hpruned & _).
  split_and!; [exact Hwidgets|exact Htables|exact Hgl|apply Hpruned|].
  eexists. split; reflexivity.
Defined.




(** C8. A pair that supplies only the script provider, and no objects: the
    warning about the missing style provider is emitted and the extensions
    resolve (there are none), and then no bundle is returned: line 183 reads
    [mode] from the pair and raises [AttributeError]. *)
Example script_only_pair_raises :
  let js := resources "inline" in
  let warned :=
    {| servables := ∅;
       warnings := ["No Bokeh CSS Resources provided to template. If required you will need to provide them manually."] |} in
  split_resources (RTuple2 (Some js) None) process = (Ok (Some js, None), warned)
  ∧ _bundle_extensions world (Some []) js warned = (Ok [], warned)
  ∧ bundle_for_objs_and_resources world (Some []) (RTuple2 (Some js) None) process
    = (Raise (AttributeError "'tuple' object has no attribute 'mode'"), warned).
Proof. split_and!; reflexivity. Qed.

(** A pair that supplies only the style provider is bundled, after the
    warning about the missing script provider. *)
Example style_only_pair_bundles :
  bundle_for_objs_and_resources world (Some [])
    (RTuple2 None (Some (resources "inline"))) process
  = (Ok {| js_files := []; js_raw := []; Bundle_css_files := []; Bundle_css_raw := [];
           hashes := None |},
     {| servables := ∅;
        warnings := ["No Bokeh JS Resources provided to template. If required you will need to provide them manually."] |}).
Proof. reflexivity. Qed.

(** ** The blob handler *)

(** C9. [BlobHandler.get] raises [HTTPError(404)] exactly when the path is
    not a key of [blobs]; when the path is a key and the file it maps to can
    be read, the handler sets the content type to
    [application/octet-stream] and writes exactly the bytes of that file. *)
Theorem blob_handler_get (fs : string → option (list byte)) (self : BlobHandler.t)
    (path : string) :
  (fst (BlobHandler.get fs self path) = Raise (HTTPError 404) ↔
   BlobHandler.blobs self !! path = None)
  ∧ (∀ artifact_path content,
       BlobHandler.blobs self !! path = Some artifact_path →
       fs artifact_path = Some content →
       ∃ self',
         BlobHandler.get fs self path = (Ok tt, self')
         ∧ BlobHandler.headers self' !! "Content-Type" = Some "application/octet-stream"
         ∧ BlobHandler.write_buffer self' = BlobHandler.write_buffer self ++ [content]
         ∧ BlobHandler.blobs self' = BlobHandler.blobs self).
Proof.
  unfold BlobHandler.get, BlobHandler.open_rb. split.
  - destruct (BlobHandler.blobs self !! path) as [artifact_path|]; [|done].
    destruct (fs artifact_path); split; done.
  - intros artifact_path content -> ->. eexists. split; [done|].
    cbn. by rewrite lookup_insert_eq.
Qed.

Lemma blob_handler_get_witness :
  let fs := λ p, if decide (p = "/site/foo/dist/foo.js") then Some [Byte.x00; Byte.xff]
                 else None in
  let self := {| BlobHandler.blobs := <["foo@^1.2.0/dist/foo.js" := "/site/foo/dist/foo.js"]> ∅;
                 BlobHandler.headers := ∅; BlobHandler.write_buffer := [] |} in
  fst (BlobHandler.get fs self "foo@latest/dist/foo.js") = Raise (HTTPError 404)
  ∧ ∃ self',
      BlobHandler.get fs self "foo@^1.2.0/dist/foo.js" = (Ok tt, self')
      ∧ BlobHandler.headers self' !! "Content-Type" = Some "application/octet-stream"
      ∧ BlobHandler.write_buffer self' = [[Byte.x00; Byte.xff]]
      ∧ BlobHandler.blobs self' = BlobHandler.blobs self.
Proof.
  intros fs self. split.
  - apply (proj1 (blob_handler_get fs self "foo@latest/dist/foo.js")). reflexivity.
  - exact (proj2 (blob_handler_get fs self "foo@^1.2.0/dist/foo.js")
             "/site/foo/dist/foo.js" [Byte.x00; Byte.xff] eq_refl eq_refl).
Defined.

(** ** [Bundle.add] *)

Section add.

Import BundleObject.

Context {Value : Type}.

Lemma append_same (l : nat) (x : Value) (s : Store Value) : append l x s l = s l ++ [x].
Proof. unfold append. by rewrite decide_True. Qed.

Lemma append_other (l a : nat) (x : Value) (s : Store Value) :
  a ≠ l → append l x s a = s a.
Proof. intros Hne. unfold append. by rewrite decide_False. Qed.

Lemma separate_distinct (b : t) :
  separate b →
  js_files b ≠ js_raw b ∧ js_files b ≠ css_files b ∧ js_files b ≠ css_raw b
  ∧ js_raw b ≠ css_files b ∧ js_raw b ≠ css_raw b ∧ css_files b ≠ css_raw b.
Proof.
  unfold separate. rewrite !NoDup_cons, !elem_of_cons, !elem_of_nil. naive_solver.
Qed.

End add.

(** C10. [add] never raises. An artifact that is none of the four variants
    leaves every list, and the hashes, as they were. On a bundle whose four
    lists are four distinct list objects, a [ScriptRef] appends its [url] to
    [js_files], a [Script] its [content] to [js_raw], a [StyleRef] its [url]
    to [css_files] and a [Style] its [content] to [css_raw], and the other
    three lists and the hashes are as they were. *)
Theorem add_frame {Value : Type} (self : BundleObject.t) (s : BundleObject.Store Value) :
  BundleObject.add self BundleObject.Other s = (Ok tt, s)
  ∧ (BundleObject.separate self →
     ∀ v type,
       let '(files, raw, css, css_raw, hashes) := BundleObject.contents s self in
       (∃ s', BundleObject.add self (BundleObject.ScriptRef v type) s = (Ok tt, s')
              ∧ BundleObject.contents s' self = (files ++ [v], raw, css, css_raw, hashes))
       ∧ (∃ s', BundleObject.add self (BundleObject.Script v type) s = (Ok tt, s')
                ∧ BundleObject.contents s' self = (files, raw ++ [v], css, css_raw, hashes))
       ∧ (∃ s', BundleObject.add self (BundleObject.StyleRef v) s = (Ok tt, s')
                ∧ BundleObject.contents s' self = (files, raw, css ++ [v], css_raw, hashes))
       ∧ (∃ s', BundleObject.add self (BundleObject.Style v) s = (Ok tt, s')
                ∧ BundleObject.contents s' self = (files, raw, css, css_raw ++ [v], hashes))).
Proof.
  split; [reflexivity|].
  intros (H12 & H13 & H14 & H23 & H24 & H34)%separate_distinct v type.
  unfold BundleObject.contents. cbn [BundleObject.add].
  split_and!; eexists; (split; [reflexivity|]);
    rewrite !append_same, !append_other by done; reflexivity.
Qed.

Lemma add_frame_witness :
  let b := BundleObject.of_ 0 1 2 3 None in
  let s : BundleObject.Store string :=
    λ a, if decide (a = 0) then ["bokeh.min.js"] else [] in
  BundleObject.add b BundleObject.Other s = (Ok tt, s)
  ∧ ∃ s', BundleObject.add b (BundleObject.ScriptRef "ext.js" "text/javascript") s = (Ok tt, s')
          ∧ BundleObject.contents s' b = (["bokeh.min.js"; "ext.js"], [], [], [], None).
Proof.
  intros b s.
  assert (Hsep : BundleObject.separate b).
  { unfold BundleObject.separate. cbn.
    rewrite !NoDup_cons, !elem_of_cons, !elem_of_nil. intuition (discriminate || constructor). }
  split.
  - exact (proj1 (add_frame b s)).
  - exact (proj1 (proj2 (add_frame b s) Hsep "ext.js" "text/javascript")).
Defined.

Lemma add_to_shared_list :
  let l := 0 in
  let b := BundleObject.of_ l l 1 2 None in
  let s : BundleObject.Store string := λ _, [] in
  let s' := snd (BundleObject.add b (BundleObject.ScriptRef "ext.js" "text/javascript") s) in
  BundleObject.contents s b = ([], [], [], [], None)
  ∧ BundleObject.contents s' b = (["ext.js"], ["ext.js"], [], [], None)
  ∧ s' (BundleObject.js_raw b) ≠ s (BundleObject.js_raw b).
Proof. split_and!; [reflexivity|reflexivity|discriminate]. Qed.

(** * Further properties of the code *)

Lemma blob_handler_servable (fs : string → option (list byte)) (self : BlobHandler.t)
    (path : string) :
  (BlobHandler.blobs self !! path = None →
   BlobHandler.get fs self path = (Raise (HTTPError 404), self))
  ∧ (∀ artifact_path content,
       BlobHandler.blobs self !! path = Some artifact_path →
       fs artifact_path = Some content →
       ∃ self',
         BlobHandler.get fs self path = (Ok tt, self')
         ∧ BlobHandler.write_buffer self' = BlobHandler.write_buffer self ++ [content]).
Proof.
  unfold BlobHandler.get, BlobHandler.open_rb. split.
  - by intros ->.
  - intros artifact_path content -> ->. eauto.
Qed.

(** ** The object graph and the feature queries *)

Lemma existsb_true {A : Type} (f : A → bool) (l : list A) :
  existsb f l = true ↔ ∃ x, x ∈ l ∧ f x = true.
Proof.
  rewrite existsb_exists. setoid_rewrite <- list_elem_of_In. done.
Qed.

Lemma referenced_reference_sets (objs : list Root) (o : Model) :
  o ∈ referenced objs ↔ ∃ references, references ∈ reference_sets objs ∧ o ∈ references.
Proof.
  unfold referenced, reference_sets. rewrite list_elem_of_bind.
  setoid_rewrite list_elem_of_bind. split.
  - intros ([references|roots] & Ho & Hobj).
    + exists references. split; [|done]. exists (AModel references).
      split; [by apply list_elem_of_singleton|done].
    + apply list_elem_of_join in Ho as (root & Ho & Hroot).
      exists root. split; [|done]. by exists (ADocument roots).
  - intros (references & ([refs|roots] & Hrefs & Hobj) & Ho).
    + apply list_elem_of_singleton in Hrefs as ->. by exists (AModel refs).
    + exists (ADocument roots). split; [|done]. apply list_elem_of_join. eauto.
Qed.

Lemma any_true (objs : list Root) (query : Model → bool) :
  _any objs query = true ↔ ∃ o, o ∈ referenced objs ∧ query o = true.
Proof.
  unfold _any. rewrite existsb_true. split.
  - intros ([references|roots] & Hobj & Hq).
    + apply existsb_true in Hq as (o & Ho & Hq). exists o. split; [|done].
      apply referenced_reference_sets. exists references. split; [|done].
      unfold reference_sets. apply list_elem_of_bind. exists (AModel references).
      split; [by apply list_elem_of_singleton|done].
    + apply existsb_true in Hq as (root & Hroot & Hq).
      apply existsb_true in Hq as (o & Ho & Hq). exists o. split; [|done].
      apply referenced_reference_sets. exists root. split; [|done].
      unfold reference_sets. apply list_elem_of_bind. by exists (ADocument roots).
  - intros (o & Ho & Hq). unfold referenced in Ho.
    apply list_elem_of_bind in Ho as ([references|roots] & Ho & Hobj).
    + exists (AModel references). split; [done|]. apply existsb_true. eauto.
    + apply list_elem_of_join in Ho as (root & Ho & Hroot).
      exists (ADocument roots). split; [done|]. apply existsb_true.
      exists root. split; [done|]. apply existsb_true. eauto.
Qed.

(** X1. [_any] is true exactly when the query holds of some object in the
    [references()] of a model of [objs] or of a root of a document of
    [objs]; in particular it is false of an empty [objs] and of roots that
    reference nothing. *)
Theorem any_spec (objs : list Root) (query : Model → bool) :
  (_any objs query = true ↔ ∃ o, o ∈ referenced objs ∧ query o = true)
  ∧ (referenced objs = [] → _any objs query = false).
Proof.
  split; [apply any_true|].
  intros Hnone. apply not_true_iff_false. rewrite any_true, Hnone.
  intros (o & Ho & _). by apply elem_of_nil in Ho.
Qed.

Lemma all_objs_fold_elem_of (objs : list Root) (acc : list Model) (o : Model) :
  o ∈ foldl (λ all_objs obj,
               match obj with
               | ADocument roots =>
                   foldl (λ all_objs root, list_union all_objs root) all_objs roots
               | AModel references => list_union all_objs references
               end) acc objs
  ↔ o ∈ acc ∨ o ∈ referenced objs.
Proof.
  revert acc. induction objs as [|obj objs IH]; intros acc.
  - simpl. unfold referenced. simpl. rewrite elem_of_nil. naive_solver.
  - cbn [foldl]. rewrite IH. unfold referenced. cbn [mbind list_bind].
    rewrite elem_of_app. destruct obj as [references|roots].
    + rewrite list_elem_of_union. naive_solver.
    + assert (Hroots : ∀ acc', o ∈ foldl (λ all_objs root, list_union all_objs root) acc' roots
                               ↔ o ∈ acc' ∨ o ∈ mjoin roots).
      { clear. induction roots as [|root roots IH]; intros acc'.
        - simpl. rewrite elem_of_nil. naive_solver.
        - cbn [foldl]. rewrite IH, list_elem_of_union. cbn [mjoin list_join].
          rewrite elem_of_app. naive_solver. }
      rewrite Hroots. naive_solver.
Qed.

Lemma all_objs_fold_NoDup (objs : list Root) (acc : list Model) :
  NoDup acc → Forall NoDup (reference_sets objs) →
  NoDup (foldl (λ all_objs obj,
                  match obj with
                  | ADocument roots =>
                      foldl (λ all_objs root, list_union all_objs root) all_objs roots
                  | AModel references => list_union all_objs references
                  end) acc objs).
Proof.
  revert acc. induction objs as [|obj objs IH]; intros acc Hacc Hsets; [done|].
  change (reference_sets (obj :: objs))
    with (match obj with ADocument roots => roots | AModel references => [references] end
          ++ reference_sets objs) in Hsets.
  rewrite Forall_app in Hsets. destruct Hsets as [Hobj Hsets].
  cbn [foldl]. apply IH; [|done]. destruct obj as [references|roots].
  - rewrite Forall_singleton in Hobj. by apply NoDup_list_union.
  - clear -Hacc Hobj. revert acc Hacc. induction Hobj as [|root roots Hroot _ IH]; intros acc Hacc.
    + done.
    + cbn [foldl]. apply IH. by apply NoDup_list_union.
Qed.

(** X2. When the runtime iterates a set over exactly its elements,
    [_all_objs] yields the objects referenced from [objs] and no others, and
    yields each of them once when every [references()] is a set. *)
Theorem all_objs_spec (w : World) (objs : list Root) :
  (∀ s, set_iter w s ≡ₚ s) →
  (∀ o, o ∈ _all_objs w objs ↔ o ∈ referenced objs)
  ∧ (Forall NoDup (reference_sets objs) → NoDup (_all_objs w objs)).
Proof.
  intros Hiter. unfold _all_objs. split.
  - intros o. rewrite Hiter, all_objs_fold_elem_of, elem_of_nil. naive_solver.
  - intros Hsets. rewrite Hiter. apply all_objs_fold_NoDup; [constructor|done].
Qed.

Lemma all_objs_spec_witness :
  let objs := [AModel [instance 1 Gauge; instance 2 Knob];
               ADocument [[instance 2 Knob; instance 3 Installed.Plot]; [instance 1 Gauge]]] in
  _all_objs world objs = [instance 2 Knob; instance 3 Installed.Plot; instance 1 Gauge]
  ∧ (∀ o, o ∈ _all_objs world objs ↔ o ∈ referenced objs)
  ∧ NoDup (_all_objs world objs).
Proof.
  intros objs.
  destruct (all_objs_spec world objs (λ s, reflexivity s)) as [Hmem Hnodup].
  split_and!; [reflexivity|exact Hmem|].
  apply Hnodup. unfold objs, reference_sets. cbn.
  repeat constructor; rewrite ?elem_of_cons, ?elem_of_nil; intuition discriminate.
Defined.

Section query_extensions.

Context (w : World) (query : ModelClass → bool).

Lemma query_extensions_loop_spec (all_objs : list Model) (names : gset string) :
  _query_extensions_loop w query all_objs names = true ↔
  ∃ o, o ∈ all_objs ∧ (top_package (model_class o) ∉ names) ∧ extension_answers w query o.
Proof.
  revert names. induction all_objs as [|obj rest IH]; intros names.
  { simpl. split; [done|]. intros (o & Ho & _). by apply elem_of_nil in Ho. }
  cbn [_query_extensions_loop]. fold (top_package (model_class obj)).
  set (name := top_package (model_class obj)).
  assert (Hskip : third_party (model_class obj) = false ∨ name ∈ names →
    (∃ o, o ∈ obj :: rest ∧ (top_package (model_class o) ∉ names) ∧ extension_answers w query o) ↔
    (∃ o, o ∈ rest ∧ (top_package (model_class o) ∉ names) ∧ extension_answers w query o)).
  { intros Hobj. split; intros (o & Ho & Hfresh & Hthird & Hans).
    - apply elem_of_cons in Ho as [->|Ho]; [|by exists o].
      destruct Hobj as [Hobj|Hobj]; [congruence|done].
    - exists o. split; [by right|done]. }
  destruct (has_implementation (model_class obj)) eqn:Himpl.
  { rewrite IH. symmetry. apply Hskip. left. unfold third_party. by rewrite Himpl. }
  destruct (decide (name = "bokeh")) as [Hcore|Hcore].
  { rewrite IH. symmetry. apply Hskip. left. unfold third_party. fold name.
    rewrite Himpl, bool_decide_eq_true_2; done. }
  assert (Hthird : third_party (model_class obj) = true).
  { unfold third_party. fold name. rewrite Himpl, bool_decide_eq_false_2; done. }
  destruct (decide (name ∈ names)) as [Hseen|Hfresh].
  { rewrite IH. symmetry. apply Hskip. by right. }
  destruct (existsb _ (model_class_reverse_map w)) eqn:Hscan.
  - split; [intros _|done]. apply existsb_true in Hscan as (c & Hc & Hq).
    apply andb_true_iff in Hq as [Hprefix Hq].
    exists obj. split; [by left|]. split; [done|]. split; [done|]. eauto.
  - assert (Hnone : ∀ o, top_package (model_class o) = name → ¬ extension_answers w query o).
    { intros o Ho (_ & c & Hc & Hprefix & Hq).
      apply not_true_iff_false in Hscan. apply Hscan, existsb_true.
      exists c. split; [done|]. rewrite <- Ho, Hprefix, Hq. done. }
    rewrite IH. split; intros (o & Ho & Hnames & Hans).
    + exists o. split; [by right|]. split; [set_solver|done].
    + apply elem_of_cons in Ho as [->|Ho]; [by destruct (Hnone obj)|].
      exists o. split; [done|]. split; [|done].
      intros [Hname%elem_of_singleton|Hin]%elem_of_union; [|done].
      by destruct (Hnone o).
Qed.

End query_extensions.

(** X3. [_query_extensions] is true exactly when some object of
    [_all_objs(objs)] without [__implementation__], whose top-level package is
    not [bokeh], has a registered class whose [__module__] starts with that
    package name and satisfies the query: the [names] set and the order of
    iteration do not change the answer. *)
Theorem query_extensions_spec (w : World) (objs : list Root) (query : ModelClass → bool) :
  _query_extensions w objs query = true ↔
  ∃ o c, o ∈ _all_objs w objs
         ∧ third_party (model_class o) = true
         ∧ c ∈ model_class_reverse_map w
         ∧ startswith (cls_module c) (top_package (model_class o)) = true
         ∧ query c = true.
Proof.
  unfold _query_extensions. rewrite query_extensions_loop_spec. split.
  - intros (o & Ho & _ & Hthird & c & Hc & Hprefix & Hq). exists o, c. done.
  - intros (o & c & Ho & Hthird & Hc & Hprefix & Hq). exists o.
    split; [done|]. split; [set_solver|]. split; [done|]. eauto.
Qed.

(** X4. The three feature queries: [_use_gl] holds exactly when a referenced
    object is a plot with the ["webgl"] backend; [_use_widgets] (and
    [_use_tables]) exactly when a referenced object is a widget (a table
    widget) or the extension query for widgets (table widgets) holds. In
    particular a referenced widget always brings the widgets component. *)
Theorem use_features_spec (w : World) (objs : list Root) :
  (_use_gl objs = true ↔ ∃ o, o ∈ referenced objs ∧ needs_gl o = true)
  ∧ (_use_widgets w objs = true ↔
       (∃ o, o ∈ referenced objs ∧ needs_widgets o = true)
       ∨ _query_extensions w objs is_Widget = true)
  ∧ (_use_tables w objs = true ↔
       (∃ o, o ∈ referenced objs ∧ needs_tables o = true)
       ∨ _query_extensions w objs is_TableWidget = true)
  ∧ (∀ o, o ∈ referenced objs → needs_widgets o = true →
       if_objs (_use_widgets w) (Some objs) = true).
Proof.
  assert (Hwidgets : _use_widgets w objs = true ↔
            (∃ o, o ∈ referenced objs ∧ needs_widgets o = true)
            ∨ _query_extensions w objs is_Widget = true).
  { unfold _use_widgets, _ext_use_widgets. by rewrite orb_true_iff, any_true. }
  split_and!.
  - unfold _use_gl. by rewrite any_true.
  - exact Hwidgets.
  - unfold _use_tables, _ext_use_tables. by rewrite orb_true_iff, any_true.
  - intros o Ho Hw. destruct objs as [|obj objs]; [done|].
    cbn [if_objs]. apply Hwidgets. eauto.
Qed.

(** ** Pruning *)

Lemma list_remove_sublist (x : string) (l : list string) : sublist (list_remove x l) l.
Proof.
  induction l as [|y l IH]; simpl; [done|].
  destruct (decide (y = x)); [by apply sublist_cons|by apply sublist_skip].
Qed.

Lemma list_remove_length (x : string) (l : list string) :
  (length l ≤ S (length (list_remove x l)))%nat.
Proof.
  induction l as [|y l IH]; simpl; [lia|].
  destruct (decide (y = x)); simpl; lia.
Qed.

Lemma list_remove_filter (P : string → Prop) `{!∀ c, Decision (P c)} (x : string)
    (l : list string) :
  ¬ P x → filter P (list_remove x l) = filter P l.
Proof.
  intros Hx. induction l as [|y l IH]; simpl; [done|].
  destruct (decide (y = x)) as [->|Hne].
  - by rewrite filter_cons_False.
  - rewrite !filter_cons, IH. done.
Qed.

Lemma remove_unless_cases (use : bool) (x : string) (l : list string) :
  remove_unless use x l = l ∨ remove_unless use x l = list_remove x l.
Proof. unfold remove_unless. destruct (negb use && _); auto. Qed.

(** X5. Pruning only ever takes out ["bokeh-widgets"], ["bokeh-tables"] and
    ["bokeh-gl"]: whatever the objects, the components left are a
    subsequence of the provider's, every other component is kept, with its
    repetitions and in its place, and at most three entries are dropped. *)
Theorem pruned_components_frame (w : World) (objs : option (list Root))
    (components : list string) :
  let optional := ["bokeh-widgets"; "bokeh-tables"; "bokeh-gl"] in
  let pruned := pruned_components w objs components in
  sublist pruned components
  ∧ filter (λ c, c ∉ optional) pruned = filter (λ c, c ∉ optional) components
  ∧ (length components ≤ length pruned + 3)%nat.
Proof.
  intros optional pruned. unfold pruned, pruned_components.
  set (c1 := remove_unless _ "bokeh-widgets" components).
  set (c2 := remove_unless _ "bokeh-tables" c1).
  set (c3 := remove_unless _ "bokeh-gl" c2).
  assert (H1 : sublist c1 components
               ∧ filter (λ c, c ∉ optional) c1 = filter (λ c, c ∉ optional) components
               ∧ (length components ≤ S (length c1))%nat).
  { destruct (remove_unless_cases (if_objs (_use_widgets w) objs) "bokeh-widgets" components)
      as [H|H]; fold c1 in H; rewrite H.
    - split_and!; [done|done|lia].
    - split_and!; [apply list_remove_sublist| |apply list_remove_length].
      apply list_remove_filter. unfold optional. set_solver. }
  assert (H2 : sublist c2 c1
               ∧ filter (λ c, c ∉ optional) c2 = filter (λ c, c ∉ optional) c1
               ∧ (length c1 ≤ S (length c2))%nat).
  { destruct (remove_unless_cases (if_objs (_use_tables w) objs) "bokeh-tables" c1)
      as [H|H]; fold c2 in H; rewrite H.
    - split_and!; [done|done|lia].
    - split_and!; [apply list_remove_sublist| |apply list_remove_length].
      apply list_remove_filter. unfold optional. set_solver. }
  assert (H3 : sublist c3 c2
               ∧ filter (λ c, c ∉ optional) c3 = filter (λ c, c ∉ optional) c2
               ∧ (length c2 ≤ S (length c3))%nat).
  { destruct (remove_unless_cases (if_objs _use_gl objs) "bokeh-gl" c2)
      as [H|H]; fold c3 in H; rewrite H.
    - split_and!; [done|done|lia].
    - split_and!; [apply list_remove_sublist| |apply list_remove_length].
      apply list_remove_filter. unfold optional. set_solver. }
  destruct H1 as (S1 & F1 & L1), H2 as (S2 & F2 & L2), H3 as (S3 & F3 & L3).
  split_and!.
  - by repeat (etrans; [eassumption|]).
  - by rewrite F3, F2, F1.
  - lia.
Qed.

(** ** What a call does to the process *)

Lemma register_app (kvs1 kvs2 : list (string * string)) (m : gmap string string) :
  register kvs2 (register kvs1 m) = register (kvs1 ++ kvs2) m.
Proof. unfold register. by rewrite foldl_app. Qed.

Lemma after_after (kvs1 kvs2 : list (string * string)) (ws1 ws2 : list string) (p : Process) :
  after kvs2 ws2 (after kvs1 ws1 p) = after (kvs1 ++ kvs2) (ws1 ++ ws2) p.
Proof. unfold after. cbn. by rewrite register_app, app_assoc. Qed.

Lemma after_warned (kvs : list (string * string)) (ws : list string) (p : Process) :
  after kvs [] (after [] ws p) = after kvs ws p.
Proof. by rewrite after_after, app_nil_r. Qed.

Lemma after_nothing (p : Process) : after [] [] p = p.
Proof. destruct p. unfold after. cbn. by rewrite app_nil_r. Qed.

Lemma register_union (kvs : list (string * string)) (m : gmap string string) :
  register kvs m = list_to_map (reverse kvs) ∪ m.
Proof.
  revert m. induction kvs as [|[k v] kvs IH]; intros m.
  - cbn. by rewrite (left_id_L ∅ (∪)).
  - unfold register in *. cbn [foldl fst snd]. rewrite IH, reverse_cons, list_to_map_app.
    cbn [list_to_map foldr uncurry fst snd]. rewrite insert_empty.
    rewrite <- (assoc_L (∪)). by rewrite <- insert_union_singleton_l.
Qed.

Lemma register_twice (kvs : list (string * string)) (m : gmap string string) :
  register kvs (register kvs m) = register kvs m.
Proof. rewrite !register_union. by rewrite (assoc_L (∪)), (idemp_L (∪)). Qed.

Lemma register_keeps_keys (kvs : list (string * string)) (m : gmap string string) (k : string) :
  is_Some (m !! k) → is_Some (register kvs m !! k).
Proof. rewrite register_union, lookup_union_is_Some. auto. Qed.

Lemma register_last (kvs : list (string * string)) (m : gmap string string) (k v : string) :
  (k, v) ∈ kvs → ∃ v', (k, v') ∈ kvs ∧ register kvs m !! k = Some v'.
Proof.
  revert m. induction kvs as [|[k0 v0] kvs IH] using rev_ind; intros m Hin.
  { by apply elem_of_nil in Hin. }
  rewrite <- register_app. unfold register at 1. cbn [foldl fst snd].
  destruct (decide (k0 = k)) as [->|Hne].
  - exists v0. rewrite lookup_insert_eq. split; [|done]. apply elem_of_app. right. by left.
  - rewrite lookup_insert_ne by done.
    apply elem_of_app in Hin as [Hin|Hin%list_elem_of_singleton]; [|congruence].
    destruct (IH m Hin) as (v' & Hv' & Hlook). exists v'. split; [|done].
    apply elem_of_app. by left.
Qed.

Section effects.

Context (w : World).

Lemma embed_extension_effect (extensions : list string) (name : string) (p : Process) :
  embed_extension w extensions name p =
  match resolve w extensions name with
  | Ok (artifact_path, server_path, cdn_url) =>
      (Ok {| artifact_path := artifact_path;
             server_url := DEFAULT_SERVER_HTTP_URL w +:+ "static/extensions/" +:+ server_path;
             cdn_url := cdn_url |},
       after [(server_path, artifact_path)] [] p)
  | Raise e => (Raise e, p)
  end.
Proof.
  unfold embed_extension. rewrite M_bind_unfold. unfold lift.
  destruct (resolve w extensions name) as [[[artifact_path server_path] cdn]|e]; [|done].
  cbn. unfold after. cbn. by rewrite app_nil_r.
Qed.

(** The extensions resolved and the registrations made do not depend on the
    process in which the resolver runs. *)
Lemma for_each_embed_effect (extensions : list string) (names : list string) :
  ∃ res kvs,
    (∀ p, for_each (embed_extension w extensions) names p = (res, after kvs [] p))
    ∧ ∀ bundles, res = Ok bundles →
        Forall2 (λ e kv, served_at w e kv.1 ∧ artifact_path e = kv.2
                         ∧ ∀ u, cdn_url e = Some u → u = "https://unpkg.com/" +:+ kv.1)
          bundles kvs.
Proof.
  induction names as [|name names (res & kvs & Hrun & Hres)].
  { exists (Ok []), []. split.
    - intros p. cbn. by rewrite after_nothing.
    - intros bundles [= <-]. constructor. }
  destruct (resolve w extensions name) as [[[artifact server_path] cdn]|e] eqn:Hresolve.
  - destruct res as [bundles|e].
    + eexists (Ok (_ :: bundles)), ((server_path, artifact) :: kvs). split.
      * intros p. cbn [for_each]. rewrite M_bind_unfold, embed_extension_effect, Hresolve.
        rewrite M_bind_unfold, Hrun, M_ret_unfold, after_after. done.
      * intros bundles' [= <-]. constructor; [|by apply Hres].
        cbn. split_and!; [done|done|].
        intros u Hu. revert Hresolve Hu. clear. unfold resolve.
        destruct (import_file w name) as [file|]; [|done]. cbn [mbind result_bind].
        destruct (exists_ w _).
        -- destruct (json_load w _) as [pkg|]; [|done]. cbn [mbind result_bind].
           destruct (getitem pkg "name") as [pkg_name|]; [|done]. cbn [mbind result_bind].
           destruct (getitem pkg "main") as [main|]; [|done]. cbn [mbind result_bind].
           intros [= _ <- <-] [= <-]. done.
        -- destruct (search_dist w _ name _) as [[a s]|]; [|done]. cbn [mbind result_bind].
           intros [= _ _ <-]. done.
    + exists (Raise e), ((server_path, artifact) :: kvs). split; [|done].
      intros p. cbn [for_each]. rewrite M_bind_unfold, embed_extension_effect, Hresolve.
      rewrite M_bind_unfold, Hrun, after_after. done.
  - exists (Raise e), []. split; [|done].
    intros p. cbn [for_each]. rewrite M_bind_unfold, embed_extension_effect, Hresolve.
    by rewrite after_nothing.
Qed.

Lemma bundle_extensions_effect (objs : option (list Root)) (resources : BaseResources) :
  ∃ res kvs,
    (∀ p, _bundle_extensions w objs resources p = (res, after kvs [] p))
    ∧ ∀ bundles, res = Ok bundles →
        Forall2 (λ e kv, served_at w e kv.1 ∧ artifact_path e = kv.2
                         ∧ ∀ u, cdn_url e = Some u → u = "https://unpkg.com/" +:+ kv.1)
          bundles kvs.
Proof.
  destruct (for_each_embed_effect
              (if minified resources then [".min.js"; ".js"] else [".js"])
              (extension_packages (candidates w objs))) as (res & kvs & Hrun & Hres).
  exists res, kvs. split; [|done]. intros p. by rewrite bundle_extensions_as_for_each.
Qed.

Lemma split_resources_effect (resources : ResourcesArg) :
  ∃ res ws, ∀ p, split_resources resources p = (res, after [] ws p).
Proof.
  destruct resources as [|mode_name|r|[js|] [css|]|items|repr];
    try (eexists _, []; intros p; cbn; by rewrite after_nothing).
  - eexists _, [_]. intros p. cbn. reflexivity.
  - eexists _, [_]. intros p. cbn. reflexivity.
Qed.

Lemma bundle_effect (objs : option (list Root)) (resources : ResourcesArg) :
  ∃ res kvs ws, ∀ p, bundle_for_objs_and_resources w objs resources p = (res, after kvs ws p).
Proof.
  unfold bundle_for_objs_and_resources.
  destruct (effective_resources w resources) as [res|e] eqn:Heff.
  2:{ exists (Raise e), [], []. intros p. rewrite M_bind_unfold. unfold lift.
      by rewrite after_nothing. }
  destruct (split_resources_effect res) as ([[js css]|e] & ws & Hsplit).
  2:{ exists (Raise e), [], ws. intros p. rewrite M_bind_unfold. unfold lift at 1.
      by rewrite M_bind_unfold, Hsplit. }
  destruct js as [js|].
  - destruct (bundle_extensions_effect objs
                (with_js_components js (pruned_components w objs (js_components js))))
      as (exts & kvs & Hext & _).
    destruct exts as [exts|e].
    2:{ exists (Raise e), kvs, ws. intros p. rewrite M_bind_unfold. unfold lift at 1.
        rewrite M_bind_unfold, Hsplit. cbn [fmap option_fmap option_map].
        rewrite !M_bind_unfold, Hext, after_warned. done. }
    destruct (resources_mode res) as [mode|e] eqn:Hmode.
    2:{ exists (Raise e), kvs, ws. intros p. rewrite M_bind_unfold. unfold lift at 1.
        rewrite M_bind_unfold, Hsplit. cbn [fmap option_fmap option_map].
        rewrite !M_bind_unfold, Hext, after_warned. unfold lift. by rewrite Hmode. }
    set (components := pruned_components w objs (js_components js)) in *.
    destruct (project_extensions w mode exts (Some <$> js_files_of js components)
                (js_raw_of js components)) as [[files raw]|e] eqn:Hproj.
    + eexists (Ok _), kvs, ws. intros p. rewrite M_bind_unfold. unfold lift at 1.
      rewrite M_bind_unfold, Hsplit.
      cbn [fmap option_fmap option_map from_option with_js_components js_components
           js_files_of js_raw_of]. fold components.
      rewrite !M_bind_unfold, Hext, after_warned. unfold lift. rewrite Hmode.
      rewrite M_bind_unfold, Hproj. rewrite M_ret_unfold. reflexivity.
    + exists (Raise e), kvs, ws. intros p. rewrite M_bind_unfold. unfold lift at 1.
      rewrite M_bind_unfold, Hsplit.
      cbn [fmap option_fmap option_map from_option with_js_components js_components
           js_files_of js_raw_of]. fold components.
      rewrite !M_bind_unfold, Hext, after_warned. unfold lift. rewrite Hmode.
      by rewrite M_bind_unfold, Hproj.
  - eexists (Ok _), [], ws. intros p. rewrite M_bind_unfold. unfold lift at 1.
    rewrite M_bind_unfold, Hsplit. cbn [fmap option_fmap option_map from_option].
    rewrite M_bind_unfold, !M_ret_unfold. reflexivity.
Qed.

End effects.

(** X6. Bundling is repeatable: what [bundle_for_objs_and_resources] returns
    or raises does not depend on the registry or on the warnings already
    emitted, and a second call leaves the registry as the first call left
    it. *)
Theorem bundle_idempotent (w : World) (objs : option (list Root)) (resources : ResourcesArg)
    (p : Process) :
  let run := bundle_for_objs_and_resources w objs resources in
  (∀ p', fst (run p') = fst (run p))
  ∧ servables (snd (run (snd (run p)))) = servables (snd (run p)).
Proof.
  intros run. destruct (bundle_effect w objs resources) as (res & kvs & ws & Hrun).
  unfold run. split.
  - intros p'. by rewrite !Hrun.
  - rewrite !Hrun. cbn. apply register_twice.
Qed.

(** X7. A call never removes a key from the [servables] registry and never
    drops a warning, whether it returns or raises; [_bundle_extensions]
    itself emits no warning. *)
Theorem registry_only_grows (w : World) (objs : option (list Root)) (resources : ResourcesArg)
    (js : BaseResources) (p : Process) :
  let p' := snd (bundle_for_objs_and_resources w objs resources p) in
  let p'' := snd (_bundle_extensions w objs js p) in
  (∀ k, is_Some (servables p !! k) → is_Some (servables p' !! k))
  ∧ warnings p `prefix_of` warnings p'
  ∧ (∀ k, is_Some (servables p !! k) → is_Some (servables p'' !! k))
  ∧ warnings p'' = warnings p.
Proof.
  intros p' p''.
  destruct (bundle_effect w objs resources) as (res & kvs & ws & Hrun).
  destruct (bundle_extensions_effect w objs js) as (res' & kvs' & Hrun' & _).
  unfold p', p''. rewrite Hrun, Hrun'. cbn. split_and!.
  - intros k. apply register_keeps_keys.
  - by apply prefix_app_r.
  - intros k. apply register_keeps_keys.
  - by rewrite app_nil_r.
Qed.

(** X8. Every descriptor that [_bundle_extensions] returns can be fetched
    from the blob handler: its [server_url] is the server base, the prefix
    [static/extensions/] and a server path that the registry now maps to the
    [artifact_path] of a returned descriptor with that same [server_url]; a
    handler over the registry serves the bytes of that file under that path;
    and a [cdn_url], when there is one, is that same path under
    [https://unpkg.com/]. *)
Theorem returned_extensions_are_servable (w : World) (objs : option (list Root))
    (js : BaseResources) (p p' : Process) (bundles : list ExtensionEmbed) :
  _bundle_extensions w objs js p = (Ok bundles, p') →
  ∀ e, e ∈ bundles →
    ∃ server_path e',
      served_at w e server_path
      ∧ e' ∈ bundles ∧ served_at w e' server_path
      ∧ servables p' !! server_path = Some (artifact_path e')
      ∧ (∀ u, cdn_url e = Some u → u = "https://unpkg.com/" +:+ server_path)
      ∧ ∀ fs handler content,
          BlobHandler.blobs handler = servables p' →
          fs (artifact_path e') = Some content →
          ∃ handler',
            BlobHandler.get fs handler server_path = (Ok tt, handler')
            ∧ BlobHandler.write_buffer handler'
              = BlobHandler.write_buffer handler ++ [content].
Proof.
  intros Hrun e He.
  destruct (bundle_extensions_effect w objs js) as (res & kvs & Heffect & Hres).
  rewrite Heffect in Hrun. injection Hrun as -> <-.
  specialize (Hres bundles eq_refl).
  apply list_elem_of_lookup in He as [i Hi].
  destruct (Forall2_lookup_l _ _ _ _ _ Hres Hi) as ([k v] & Hkv & Hserved & Hpath & Hcdn).
  cbn [fst snd] in *.
  destruct (register_last kvs (servables p) k v) as (v' & Hv' & Hlook).
  { apply list_elem_of_lookup. eauto. }
  apply list_elem_of_lookup in Hv' as [j Hj].
  destruct (Forall2_lookup_r _ _ _ _ _ Hres Hj) as (e' & He' & Hserved' & Hpath' & _).
  cbn [fst snd] in *. exists k, e'. split_and!; try done.
  - apply list_elem_of_lookup. eauto.
  - cbn. by rewrite Hpath'.
  - intros fs handler content Hblobs Hfile.
    destruct (proj2 (blob_handler_servable fs handler k) (artifact_path e') content)
      as (handler' & Hget & Hbuffer); [|done|eauto].
    rewrite Hblobs. cbn. by rewrite Hpath'.
Qed.

Lemma returned_extensions_are_servable_witness :
  let foo := {| artifact_path := "/site/foo/dist/foo.js";
                server_url := "http://localhost:5006/static/extensions/foo@^1.2.0/dist/foo.js";
                cdn_url := Some "https://unpkg.com/foo@^1.2.0/dist/foo.js" |} in
  let registered :=
    {| servables := <["foo@^1.2.0/dist/foo.js" := "/site/foo/dist/foo.js"]> ∅;
       warnings := [] |} in
  let objs' := Some [AModel [instance 1 Gauge]] in
  _bundle_extensions world objs' (resources "server") process = (Ok [foo], registered)
  ∧ ∃ server_path e',
      served_at world foo server_path
      ∧ e' ∈ [foo]
      ∧ servables registered !! server_path = Some (artifact_path e').
Proof.
  intros foo registered objs'.
  split; [reflexivity|].
  destruct (returned_extensions_are_servable world objs' (resources "server") process
              registered [foo] eq_refl foo ltac:(by left))
    as (server_path & e' & Hserved & He' & _ & Hlook & _).
  exists server_path, e'. done.
Defined.

(** ** Assembly, case by case *)

Lemma no_third_party_no_packages (cands : list ModelClass) :
  (∀ c, c ∈ cands → third_party c = false) → extension_packages cands = [].
Proof.
  intros Hcore. unfold extension_packages.
  induction cands as [|c cands IH]; [done|].
  rewrite filter_cons_False.
  - apply IH. intros c' Hc'. apply Hcore. by right.
  - rewrite (Hcore c) by left. done.
Qed.

(** X9. When every candidate is defined by [bokeh] or carries its own
    [__implementation__], nothing is resolved: [_bundle_extensions] returns
    the empty list without touching the registry, and with a single provider
    the bundle is returned, in every mode, as the provider's pruned script
    resources followed by the generated code, its style resources and its
    hashes. *)
Theorem core_objects_need_no_extension (w : World) (objs : option (list Root))
    (resources : ResourcesArg) (r : BaseResources) (p : Process) :
  (∀ c, c ∈ candidates w objs → third_party c = false) →
  effective_resources w resources = Ok (RResources r) →
  let components := pruned_components w objs (js_components r) in
  (∀ js, _bundle_extensions w objs js p = (Ok [], p))
  ∧ bundle_for_objs_and_resources w objs resources p
    = (Ok {| js_files := Some <$> js_files_of r components;
             js_raw := js_raw_of r components ++ generated w objs;
             Bundle_css_files := css_files r; Bundle_css_raw := css_raw r;
             hashes := Some (hashes_of r components) |}, p).
Proof.
  intros Hcore Heff components.
  assert (Hnone : ∀ js, _bundle_extensions w objs js p = (Ok [], p)).
  { intros js. rewrite bundle_extensions_as_for_each.
    by rewrite no_third_party_no_packages. }
  split; [exact Hnone|].
  rewrite (bundle_single_provider w objs resources r p Heff). cbv zeta. fold components.
  rewrite Hnone. unfold project_extensions. repeat case_decide; cbn; by rewrite app_nil_r.
Qed.

Lemma core_objects_need_no_extension_witness :
  let objs := Some [ADocument [[instance 1 Installed.Plot; instance 2 Custom]]] in
  bundle_for_objs_and_resources world objs (RStr "inline") process
  = (Ok {| js_files := []; js_raw := ["/* bokeh */"];
           Bundle_css_files := []; Bundle_css_raw := []; hashes := Some ∅ |}, process).
Proof.
  intros objs.
  refine (proj2 (core_objects_need_no_extension world objs (RStr "inline")
                   (resources "inline") process _ eq_refl)).
  intros c Hc. apply list_elem_of_In in Hc. simpl in Hc.
  destruct Hc as [<-|[<-|[]]]; reflexivity.
Defined.

(** X10. Without a script provider ([None], or a pair whose first component
    is [None]) the extensions are not resolved at all: the call always
    returns, the registry is untouched, the bundle holds no script but the
    generated code, the styles of the style provider and no hashes, and the
    only warning, emitted when a style provider stands alone in a pair, is
    the one about the missing JS resources. *)
Theorem no_script_provider (w : World) (objs : option (list Root))
    (resources res : ResourcesArg) (p : Process) :
  effective_resources w resources = Ok res →
  res = RNone ∨ (∃ css, res = RTuple2 None css) →
  bundle_for_objs_and_resources w objs resources p
  = (Ok {| js_files := []; js_raw := generated w objs;
           Bundle_css_files := from_option css_files [] (style_provider res);
           Bundle_css_raw := from_option css_raw [] (style_provider res);
           hashes := None |},
     {| servables := servables p;
        warnings := warnings p ++
          match style_provider res with
          | Some _ => ["No Bokeh JS Resources provided to template. If required you will need to provide them manually."]
          | None => []
          end |}).
Proof.
  intros Heff Hres. unfold bundle_for_objs_and_resources.
  rewrite M_bind_unfold. unfold lift at 1. rewrite Heff.
  destruct Hres as [->|[[css|] ->]]; cbn; unfold generated;
    destruct (bundle_models w (models_of w objs)); cbn; rewrite ?app_nil_r; try done.
  all: by destruct p.
Qed.

Lemma no_script_provider_witness :
  bundle_for_objs_and_resources world (Some [AModel [instance 1 Baz]])
    (RTuple2 None (Some (resources "cdn"))) process
  = (Ok {| js_files := []; js_raw := []; Bundle_css_files := []; Bundle_css_raw := [];
           hashes := None |},
     {| servables := ∅;
        warnings := ["No Bokeh JS Resources provided to template. If required you will need to provide them manually."] |}).
Proof.
  exact (no_script_provider world (Some [AModel [instance 1 Baz]])
           (RTuple2 None (Some (resources "cdn"))) _ process eq_refl
           (or_intror (ex_intro _ (Some (resources "cdn")) eq_refl))).
Defined.

(** X11. Errors in the resources configuration come before anything else: a
    value that is neither [None], a mode name, a [BaseResources] nor a tuple
    raises the [ValueError] of line 150, whose message ends with the [repr]
    of the value; a tuple that is not a pair of optional [BaseResources]
    fails at that line too, while the message is formatted: with that
    [ValueError] for a tuple of one item, with a [TypeError] for any other;
    and a mode name that [Resources] rejects raises what [Resources] raises.
    In each case no warning has been emitted and the registry is untouched. *)
Theorem invalid_resources_raise_first (w : World) (objs : option (list Root))
    (resources : ResourcesArg) (p : Process) :
  let expected := "expected Resources or a pair of optional Resources, got " in
  (∀ repr,
     settings_resources w resources = ROther repr →
     bundle_for_objs_and_resources w objs resources p
     = (Raise (ValueError (expected +:+ repr)), p))
  ∧ (∀ items,
       settings_resources w resources = RTuple items →
       match items with
       | [item] =>
           bundle_for_objs_and_resources w objs resources p
           = (Raise (ValueError (expected +:+ item)), p)
       | _ =>
           ∃ msg, bundle_for_objs_and_resources w objs resources p
                  = (Raise (TypeError msg), p)
       end)
  ∧ (∀ mode_name e,
       settings_resources w resources = RStr mode_name →
       Resources_new w mode_name = Raise e →
       bundle_for_objs_and_resources w objs resources p = (Raise e, p)).
Proof.
  intros expected. split_and!.
  - intros repr Hset.
    assert (Heff : effective_resources w resources = Ok (ROther repr))
      by (unfold effective_resources; by rewrite Hset).
    destruct (bundle_invalid_resources w objs resources (ROther repr) p Heff)
      as (e & [= <-] & Hraise); eauto.
  - intros items Hset.
    assert (Heff : effective_resources w resources = Ok (RTuple items))
      by (unfold effective_resources; by rewrite Hset).
    destruct (bundle_invalid_resources w objs resources (RTuple items) p Heff)
      as (e & He & Hraise); [eauto|].
    destruct items as [|item [|item' items]]; injection He as <-; eauto.
  - intros mode_name e Hset Hnew. unfold bundle_for_objs_and_resources.
    rewrite M_bind_unfold. unfold lift at 1, effective_resources.
    by rewrite Hset, Hnew.
Qed.

Lemma invalid_resources_raise_first_witness :
  let w := {| exists_ := exists_ world; json_load := json_load world;
              import_file := import_file world;
              model_class_reverse_map := model_class_reverse_map world;
              set_iter := set_iter world;
              DEFAULT_SERVER_HTTP_URL := DEFAULT_SERVER_HTTP_URL world;
              Resources_inline := Resources_inline world;
              Resources_new := λ mode,
                if decide (mode = "cdn") then Ok (resources mode)
                else Raise (ValueError "wrong value for 'mode' parameter");
              settings_resources := settings_resources world;
              bundle_models := bundle_models world |} in
  bundle_for_objs_and_resources w (Some []) (ROther "42") process
  = (Raise (ValueError "expected Resources or a pair of optional Resources, got 42"), process)
  ∧ (∃ msg, bundle_for_objs_and_resources w (Some []) (RTuple ["'cdn'"; "None"]) process
            = (Raise (TypeError msg), process))
  ∧ bundle_for_objs_and_resources w (Some []) (RStr "fast") process
    = (Raise (ValueError "wrong value for 'mode' parameter"), process).
Proof.
  intros w.
  destruct (invalid_resources_raise_first w (Some []) (ROther "42") process)
    as (Hother & _ & _).
  destruct (invalid_resources_raise_first w (Some []) (RTuple ["'cdn'"; "None"]) process)
    as (_ & Htuple & _).
  destruct (invalid_resources_raise_first w (Some []) (RStr "fast") process)
    as (_ & _ & Hstr).
  split_and!.
  - exact (Hother "42" eq_refl).
  - exact (Htuple ["'cdn'"; "None"] eq_refl).
  - exact (Hstr "fast" _ eq_refl eq_refl).
Defined.

(** X12. In every bundle that is returned the styles are those of the style
    provider, never pruned; the hashes are those of the script provider for
    its pruned components, and absent without one; and the generated code,
    if any, is the last raw script. *)
Theorem returned_bundle_styles_and_hashes (w : World) (objs : option (list Root))
    (resources res : ResourcesArg) (p p' : Process) (b : Bundle) :
  effective_resources w resources = Ok res →
  bundle_for_objs_and_resources w objs resources p = (Ok b, p') →
  Bundle_css_files b = from_option css_files [] (style_provider res)
  ∧ Bundle_css_raw b = from_option css_raw [] (style_provider res)
  ∧ hashes b = (λ r, hashes_of r (pruned_components w objs (js_components r)))
               <$> script_provider res
  ∧ ∃ raw, js_raw b = raw ++ generated w objs.
Proof.
  intros Heff Hb. destruct res as [|mode_name|r|[js|] css|items|repr].
  - revert Hb. unfold bundle_for_objs_and_resources.
    rewrite M_bind_unfold. unfold lift at 1. rewrite Heff. cbn.
    intros [= <- _]. cbn. split_and!; try done. exists []. unfold generated.
    by destruct (bundle_models w (models_of w objs)).
  - by apply effective_resources_not_str in Heff.
  - rewrite (bundle_single_provider w objs resources r p Heff) in Hb.
    destruct (_bundle_extensions w objs _ p) as [[extensions|e] p1]; [|done].
    destruct (project_extensions w (mode r) extensions _ _) as [[files raw]|e]; [|done].
    injection Hb as <- _. cbn. split_and!; try done. by exists raw.
  - destruct (script_pair_raises w objs resources js css p Heff) as (e & p1 & Hraise).
    congruence.
  - revert Hb. unfold bundle_for_objs_and_resources.
    rewrite M_bind_unfold. unfold lift at 1. rewrite Heff.
    destruct (split_resources_pair None css p) as (p2 & Hsplit).
    rewrite M_bind_unfold, Hsplit. cbn.
    intros [= <- _]. cbn. split_and!; try done. exists []. unfold generated.
    by destruct (bundle_models w (models_of w objs)).
  - destruct (bundle_invalid_resources w objs resources (RTuple items) p Heff)
      as (e & _ & Hraise); [eauto|congruence].
  - destruct (bundle_invalid_resources w objs resources (ROther repr) p Heff)
      as (e & _ & Hraise); [eauto|congruence].
Qed.

Lemma returned_bundle_styles_and_hashes_witness :
  let styled :=
    {| mode := "cdn"; minified := true; js_components := ["bokeh"; "bokeh-gl"];
       js_files_of := λ components, (λ c, c +:+ ".js") <$> components;
       js_raw_of := λ _, [];
       hashes_of := λ components, list_to_map ((λ c, (c +:+ ".js", "sha384")) <$> components);
       css_files := ["bokeh.css"]; css_raw := ["body {}"] |} in
  ∃ b, bundle_for_objs_and_resources world (Some [AModel [instance 1 Installed.Plot]])
         (RResources styled) process = (Ok b, process)
       ∧ Bundle_css_files b = ["bokeh.css"] ∧ Bundle_css_raw b = ["body {}"]
       ∧ hashes b = Some (<["bokeh.js" := "sha384"]> ∅).
Proof.
  intros styled. eexists. split; [reflexivity|].
  destruct (returned_bundle_styles_and_hashes world (Some [AModel [instance 1 Installed.Plot]])
              (RResources styled) (RResources styled) process process _ eq_refl eq_refl)
    as (Hfiles & Hraw & Hhashes & _).
  split_and!; [exact Hfiles|exact Hraw|exact Hhashes].
Defined.

(** ** Resolution as a whole *)

Lemma extension_packages_Permutation (cands cands' : list ModelClass) :
  cands ≡ₚ cands' → extension_packages cands ≡ₚ extension_packages cands'.
Proof.
  intros Hperm. apply NoDup_Permutation; try apply first_occurrences_NoDup.
  intros name. rewrite !extension_packages_spec. by setoid_rewrite Hperm.
Qed.

Lemma bundle_extensions_loop_as_for_each (w : World) (extensions : list string)
    (cands : list ModelClass) (p : Process) :
  _bundle_extensions_loop w extensions cands ∅ [] p
  = for_each (embed_extension w extensions) (extension_packages cands) p.
Proof. rewrite bundle_extensions_loop_spec, filter_unseen by done. apply bind_ret_app_nil. Qed.

Lemma for_each_embed_descriptors (w : World) (extensions : list string) (names : list string)
    (p p' : Process) (bundles : list ExtensionEmbed) :
  for_each (embed_extension w extensions) names p = (Ok bundles, p') →
  omap (descriptor w extensions) names = bundles
  ∧ Forall (λ name, is_Some (descriptor w extensions name)) names.
Proof.
  revert p p' bundles. induction names as [|name names IH]; intros p p' bundles.
  { cbn. intros [= <- _]. done. }
  cbn [for_each]. rewrite M_bind_unfold, embed_extension_effect, Forall_cons.
  cbn [omap list_omap]. unfold descriptor at 1.
  destruct (resolve w extensions name) as [[[a sp] c]|e] eqn:Hresolve; [|done].
  rewrite M_bind_unfold.
  destruct (for_each _ names _) as [[rest|e] p1] eqn:Hrest; [|done].
  rewrite M_ret_unfold. intros [= <- _].
  destruct (IH _ _ _ Hrest) as [<- Hall]. split; [done|]. split; [|done].
  unfold descriptor. rewrite Hresolve. eauto.
Qed.

Lemma for_each_embed_returns (w : World) (extensions : list string) (names : list string)
    (p : Process) :
  (∃ bundles p', for_each (embed_extension w extensions) names p = (Ok bundles, p'))
  ↔ Forall (λ name, ∃ r, resolve w extensions name = Ok r) names.
Proof.
  revert p. induction names as [|name names IH]; intros p.
  { split; [constructor|]. intros _. cbn. eauto. }
  cbn [for_each]. rewrite M_bind_unfold, embed_extension_effect, Forall_cons.
  destruct (resolve w extensions name) as [[[a sp] c]|e].
  - rewrite M_bind_unfold. rewrite <- (IH (after [(sp, a)] [] p)).
    destruct (for_each _ names _) as [[bundles|e] p1].
    + rewrite M_ret_unfold. split; [eauto 6|]. eauto.
    + split; [by intros (? & ? & ?)|]. intros (_ & ? & ? & ?). done.
  - split; [by intros (? & ? & ?)|]. by intros ((? & ?) & _).
Qed.

(** X13. The order in which the candidates are met changes neither whether
    the resolver returns nor which descriptors it returns: over two
    enumerations of the same candidates, one run returns exactly when the
    other does, and the lists returned are the same up to their order. *)
Theorem bundle_extensions_order_independent (w : World) (extensions : list string)
    (cands cands' : list ModelClass) (p : Process) :
  cands ≡ₚ cands' →
  let run := λ cs, _bundle_extensions_loop w extensions cs ∅ [] p in
  ((∃ bundles p1, run cands = (Ok bundles, p1)) ↔
   (∃ bundles' p1', run cands' = (Ok bundles', p1')))
  ∧ ∀ bundles p1 bundles' p1',
      run cands = (Ok bundles, p1) → run cands' = (Ok bundles', p1') →
      bundles ≡ₚ bundles'.
Proof.
  intros Hperm run. unfold run. rewrite !bundle_extensions_loop_as_for_each.
  apply extension_packages_Permutation in Hperm. split.
  - rewrite !for_each_embed_returns. by rewrite Hperm.
  - intros bundles p1 bundles' p1' [<- _]%for_each_embed_descriptors
      [<- _]%for_each_embed_descriptors. by rewrite Hperm.
Qed.

Lemma bundle_extensions_order_independent_witness :
  let foo := {| artifact_path := "/site/foo/dist/foo.js";
                server_url := "http://localhost:5006/static/extensions/foo@^1.2.0/dist/foo.js";
                cdn_url := Some "https://unpkg.com/foo@^1.2.0/dist/foo.js" |} in
  let run := λ cs, _bundle_extensions_loop world [".js"] cs ∅ [] process in
  fst (run [Gauge; Installed.Plot]) = Ok [foo]
  ∧ fst (run [Installed.Plot; Gauge]) = Ok [foo]
  ∧ ((∃ bundles p1, run [Gauge; Installed.Plot] = (Ok bundles, p1)) ↔
     (∃ bundles' p1', run [Installed.Plot; Gauge] = (Ok bundles', p1'))).
Proof.
  intros foo run. split_and!; [reflexivity|reflexivity|].
  exact (proj1 (bundle_extensions_order_independent world [".js"] [Gauge; Installed.Plot]
                  [Installed.Plot; Gauge] process (perm_swap _ _ _))).
Defined.

(** X14. [_bundle_extensions] returns a list exactly when every third-party
    package of its candidates resolves; one package that does not resolve
    fails the call. *)
Theorem bundle_extensions_returns_iff (w : World) (objs : option (list Root))
    (js : BaseResources) (p : Process) :
  let extensions := if minified js then [".min.js"; ".js"] else [".js"] in
  (∃ bundles p', _bundle_extensions w objs js p = (Ok bundles, p'))
  ↔ ∀ name, name ∈ extension_packages (candidates w objs) →
            ∃ r, resolve w extensions name = Ok r.
Proof.
  intros extensions. rewrite bundle_extensions_as_for_each.
  fold extensions. rewrite for_each_embed_returns. apply Forall_forall.
Qed.

(** ** The blob handler, when it fails *)

(** X15. The two failures that come before the response is touched: a path
    that is not registered raises [HTTPError(404)], and a registered path
    whose file cannot be opened raises the error of [open], not a 404; in
    both cases no header has been set and nothing has been written. A
    request never changes [blobs]. *)
Theorem blob_handler_failure (fs : string → option (list byte)) (self : BlobHandler.t)
    (path : string) :
  (BlobHandler.blobs self !! path = None →
   BlobHandler.get fs self path = (Raise (HTTPError 404), self))
  ∧ (∀ artifact_path,
       BlobHandler.blobs self !! path = Some artifact_path →
       fs artifact_path = None →
       BlobHandler.get fs self path = (Raise (OSError artifact_path), self))
  ∧ BlobHandler.blobs (snd (BlobHandler.get fs self path)) = BlobHandler.blobs self.
Proof.
  unfold BlobHandler.get, BlobHandler.open_rb. split_and!.
  - by intros ->.
  - by intros artifact_path -> ->.
  - destruct (BlobHandler.blobs self !! path) as [artifact_path|]; [|done].
    by destruct (fs artifact_path).
Qed.

Lemma blob_handler_failure_witness :
  let self := {| BlobHandler.blobs := <["foo@^1.2.0/dist/foo.js" := "/site/foo/dist/foo.js"]> ∅;
                 BlobHandler.headers := ∅; BlobHandler.write_buffer := [] |} in
  BlobHandler.get (λ _, None) self "foo@^1.2.0/dist/foo.js"
  = (Raise (OSError "/site/foo/dist/foo.js"), self)
  ∧ BlobHandler.get (λ _, None) self "foo@latest/dist/foo.js"
    = (Raise (HTTPError 404), self).
Proof.
  intros self. split.
  - exact (proj1 (proj2 (blob_handler_failure (λ _, None) self "foo@^1.2.0/dist/foo.js"))
             "/site/foo/dist/foo.js" eq_refl eq_refl).
  - exact (proj1 (blob_handler_failure (λ _, None) self "foo@latest/dist/foo.js") eq_refl).
Defined.

(** ** The other methods of [Bundle] *)

Section bundle_methods.

Import BundleObject BundleMethods.

Lemma string_app_assoc (a b c : string) : (a +:+ b) +:+ c = a +:+ b +:+ c.
Proof.
  induction a as [|x a IH]; [done|].
  change (String x ((a +:+ b) +:+ c) = String x (a +:+ b +:+ c)). by f_equal.
Qed.

Lemma str_join_snoc (sep : string) (l : list string) (x : string) :
  str_join sep (l ++ [x]) =
  match l with
  | [] => x
  | _ => str_join sep l +:+ sep +:+ x
  end.
Proof.
  induction l as [|y l IH]; [done|].
  destruct l as [|z l]; [reflexivity|].
  change (y +:+ sep +:+ str_join sep ((z :: l) ++ [x])
          = (y +:+ sep +:+ str_join sep (z :: l)) +:+ sep +:+ x).
  by rewrite IH, !string_app_assoc.
Qed.

(** X16. [scripts(tag=False)] after [add]: adding a [Script] appends its
    content on a new line, or makes it the whole text when there was no raw
    script; on a bundle whose four lists are distinct, adding anything else
    leaves the text as it was. *)
Theorem scripts_after_add (self : BundleObject.t) (s : Store string) (v type : string) :
  let added artifact := snd (add self artifact s) in
  scripts_untagged self (added (Script v type))
  = match s (js_raw self) with
    | [] => v
    | _ => scripts_untagged self s +:+ newline +:+ v
    end
  ∧ (separate self →
     scripts_untagged self (added (ScriptRef v type)) = scripts_untagged self s
     ∧ scripts_untagged self (added (StyleRef v)) = scripts_untagged self s
     ∧ scripts_untagged self (added (Style v)) = scripts_untagged self s
     ∧ scripts_untagged self (added Other) = scripts_untagged self s).
Proof.
  intros added. unfold added, scripts_untagged. cbn [add snd]. split.
  - rewrite append_same. apply str_join_snoc.
  - intros (H12 & H13 & H14 & H23 & H24 & H34)%separate_distinct.
    rewrite !append_other by done. done.
Qed.

Lemma scripts_after_add_witness :
  let b := of_ 0 1 2 3 None in
  let s : Store string := λ a, if decide (a = 1) then ["var a;"; "var b;"] else [] in
  scripts_untagged b (snd (add b (Script "var c;" "text/javascript") s))
  = "var a;" +:+ newline +:+ "var b;" +:+ newline +:+ "var c;"
  ∧ scripts_untagged b (snd (add b (StyleRef "a.css") s)) = scripts_untagged b s.
Proof.
  intros b s.
  assert (Hsep : separate b).
  { unfold separate. cbn.
    rewrite !NoDup_cons, !elem_of_cons, !elem_of_nil. intuition (discriminate || constructor). }
  destruct (scripts_after_add b s "a.css" "") as [_ Hother].
  split.
  - exact (proj1 (scripts_after_add b s "var c;" "text/javascript")).
  - exact (proj1 (proj2 (Hother Hsep))).
Defined.

(** X17. [Bundle.__init__]: a list that is passed is kept as the very list
    object, a list that is not passed is a new empty list, and the lists that
    existed before are not changed. So the four lists of the new bundle are
    distinct whenever the lists passed are distinct existing lists, and
    always for [Bundle()]. *)
Theorem init_lists {Value : Type} (kwargs : Kwargs) (h : Heap Value) :
  Forall (λ a, a < next h)%nat (given kwargs) →
  NoDup (given kwargs) →
  let '(b, h') := init kwargs h in
  separate b
  ∧ hashes b = kw_hashes kwargs
  ∧ (∀ a, a < next h → lists h' a = lists h a)%nat
  ∧ from_option (λ a, a = js_files b) (lists h' (js_files b) = []) (kw_js_files kwargs)
  ∧ from_option (λ a, a = js_raw b) (lists h' (js_raw b) = []) (kw_js_raw kwargs)
  ∧ from_option (λ a, a = css_files b) (lists h' (css_files b) = []) (kw_css_files kwargs)
  ∧ from_option (λ a, a = css_raw b) (lists h' (css_raw b) = []) (kw_css_raw kwargs).
Proof.
  destruct kwargs as [[a1|] [a2|] [a3|] [a4|] hs]; unfold given; cbn;
    rewrite ?Forall_cons, ?NoDup_cons, ?elem_of_cons, ?elem_of_nil; intros Hlt Hnd;
    (split_and!;
     [ unfold separate; cbn; rewrite !NoDup_cons, !elem_of_cons, !elem_of_nil;
       split_and!; try constructor; intuition lia
     | reflexivity
     | intros a Ha; repeat case_decide; try lia; reflexivity
     | try reflexivity; repeat case_decide; try lia; reflexivity ..]).
Qed.

Lemma init_lists_witness :
  let h : Heap string := {| lists := λ a, if decide (a = 0) then ["bokeh.js"] else []; next := 1 |} in
  let kwargs := {| kw_js_files := Some 0; kw_js_raw := None; kw_css_files := None;
                   kw_css_raw := None; kw_hashes := None |} in
  let b := fst (init kwargs h) in
  let h' := snd (init kwargs h) in
  separate b ∧ js_files b = 0 ∧ lists h' (js_files b) = ["bokeh.js"] ∧ lists h' (js_raw b) = [].
Proof.
  intros h kwargs b h'.
  assert (Hgiven : Forall (λ a, a < next h)%nat (given kwargs)).
  { unfold given. cbn. constructor; [lia|constructor]. }
  assert (Hnodup : NoDup (given kwargs)).
  { unfold given. cbn. apply NoDup_singleton. }
  pose proof (init_lists kwargs h Hgiven Hnodup) as H.
  destruct H as (Hsep & _ & Hkept & _ & Hraw & _).
  split_and!; [exact Hsep|reflexivity|reflexivity|exact Hraw].
Defined.

End bundle_methods.
